(** * Restaurant ordering server: sessions, carts and orders

    A shallow embedding of [mcp-server/src/server.py].  The tools are
    translated one by one, all but [list_orders], which returns the orders
    in the order they were inserted, an order the model of the order
    dictionary does not keep.  The two process-wide
    dictionaries [ORDERS] and [ACTIVE_SESSIONS] become fields of an explicit
    [State]; the Python objects that are shared by reference (the cart
    lists and the cart-line dictionaries) live in two heaps addressed by
    locations, so that aliasing between a session's cart and an order's
    [items] is visible in the model.  Readings of [uuid4()] and of
    [datetime.now()] are arguments of the operations that consume them. *)

From Stdlib Require Import ZArith Ascii String List.
From stdpp Require Import base option list gmap strings fin_maps fin_sets sorting.

Local Open Scope Z_scope.
Local Open Scope string_scope.
Local Open Scope list_scope.

(** ** Python numbers

    Menu prices come out of [json.load] and are Python [int]s or [float]s.
    The server multiplies them by an [int] quantity, sums the products with
    the builtin [sum] and compares them with a price limit.  The builtin is
    kept abstract: it adds from the left on [int]s, and may use a compensated
    summation on [float]s; all that is assumed is that the sum of no number
    is 0.  Every statement below therefore holds for floating-point prices
    as well. *)

Class PyNumber (num : Type) := {
  num_zero : num;                    (* the [int] 0 *)
  num_sum : list num → num;          (* [sum(xs)] *)
  num_mul_int : num → Z → num;       (* [price * quantity] *)
  num_le : num → num → bool;         (* [price <= max_price] *)
  num_sum_nil : num_sum [] = num_zero;
}.

(** Integer prices (for instance prices in cents): [sum] adds from the left,
    starting from 0. *)
#[export] Instance Z_PyNumber : PyNumber Z := {
  num_zero := 0;
  num_sum := λ xs, fold_left Z.add xs 0;
  num_mul_int := Z.mul;
  num_le := Z.leb;
  num_sum_nil := eq_refl;
}.

(** ** Strings: [str.lower] and [str.upper]

    A Python [str] is kept as its UTF-8 encoding, on which [==] is equality.
    The server compares menu names, categories, allergens and the dietary
    preference after [str.lower()], which follows the Unicode case tables.
    The method is kept abstract: all that is assumed is that it maps the
    empty string, and no other, to the empty string.  The statements below
    therefore hold for names, categories and allergens in any script. *)

Class PyStr := {
  lower : string → string;           (* [s.lower()] *)
  lower_eq_empty : ∀ s, lower s = EmptyString ↔ s = EmptyString;
}.

(** On ASCII text [str.lower] changes the letters A to Z only.  The
    hexadecimal digits of an identifier, which are ASCII, are put in upper
    case with [str.upper]. *)

Definition ascii_lower (c : ascii) : ascii :=
  let n := N_of_ascii c in
  if ((65 <=? n) && (n <=? 90))%N then ascii_of_N (n + 32) else c.

Definition ascii_upper (c : ascii) : ascii :=
  let n := N_of_ascii c in
  if ((97 <=? n) && (n <=? 122))%N then ascii_of_N (n - 32) else c.

Fixpoint lower_ascii (s : string) : string :=
  match s with
  | EmptyString => EmptyString
  | String c r => String (ascii_lower c) (lower_ascii r)
  end.

(** [str.lower] for menus and arguments written in ASCII. *)
Definition ascii_PyStr : PyStr.
Proof.
  refine {| lower := lower_ascii |}.
  intros [|c r]; simpl; split; intros Hs; (reflexivity || discriminate Hs).
Defined.

Fixpoint upper (s : string) : string :=
  match s with
  | EmptyString => EmptyString
  | String c r => String (ascii_upper c) (upper r)
  end.

(** Truth value of an optional string argument: [None] and the empty string
    are falsy. *)
Definition str_truthy (o : option string) : option string :=
  match o with
  | Some s => if String.eqb s EmptyString then None else Some s
  | None => None
  end.

(** ** JSON payloads ([Dict[str, Any]] arguments)

    [customer_info] and [payment_info] are passed through without being
    inspected, except for the lookup of ['method'].  Numbers keep their
    literal text. *)

#[warnings="-register-all"]
Inductive json : Type :=
| JNull
| JBool (b : bool)
| JNumber (literal : string)
| JString (s : string)
| JArray (xs : list json)
| JObject (fields : list (string * json)).

(** Clock readings ([datetime.now()]); the server stores their ISO
    rendering, which is order preserving. *)
Definition timestamp := Z.

(** Addresses of Python objects (cart lists and cart-line dictionaries). *)
Definition loc := positive.

Section Server.

Context {num : Type} `{PyNumber num} {str : PyStr}.

(** ** Data model *)

Record MenuItem := mkMenuItem {
  m_id : string;
  m_name : string;
  m_category : string;
  m_price : num;
  m_is_vegetarian : bool;
  m_is_vegan : bool;
  m_is_gluten_free : bool;
  m_allergens : list string;
}.

(** A cart line: [{"item_id", "name", "price", "quantity"}]. *)
Record CartLine := mkCartLine {
  item_id : string;
  name : string;
  price : num;
  quantity : Z;
}.

(** A session: [{"cart", "created_at", "last_active"}]; [cart] refers to a
    list object. *)
Record Session := mkSession {
  cart : loc;
  created_at : timestamp;
  last_active : timestamp;
}.

Record PaymentInfo := mkPaymentInfo {
  method : json;
  payment_status : string;
  transaction_id : string;
}.

(** An order; [items] refers to the list object that was the session's cart
    when the order was placed. *)
Record Order := mkOrder {
  order_id : string;
  items : loc;
  total : num;
  status : string;
  order_created_at : timestamp;
  customer_info : gmap string json;
  payment_info : PaymentInfo;
}.

Record State := mkState {
  list_heap : gmap loc (list loc);      (* list objects: references to lines *)
  line_heap : gmap loc CartLine;        (* cart-line dictionaries *)
  ACTIVE_SESSIONS : gmap string Session;
  ORDERS : gmap string Order;
}.

(** The state at start-up: both dictionaries are empty. *)
Definition initial_state : State :=
  {| list_heap := ∅; line_heap := ∅; ACTIVE_SESSIONS := ∅; ORDERS := ∅ |}.

(** The menu is loaded once from [menu_items.json] and never changes. *)
Variable MENU_ITEMS : list MenuItem.

(** ** Menu queries *)

Definition allergen_free (allergen : string) (i : MenuItem) : bool :=
  negb (existsb (String.eqb (lower allergen)) (map lower (m_allergens i))).

Definition find_items_by_criteria
    (dietary_preference : option string) (max_price : option num)
    (exclude_allergens : option (list string)) (category : option string)
    : list MenuItem :=
  let filtered := MENU_ITEMS in
  let filtered :=
    match str_truthy dietary_preference with
    | Some dp =>
        let pref := lower dp in
        if String.eqb pref "vegetarian" then List.filter m_is_vegetarian filtered
        else if String.eqb pref "vegan" then List.filter m_is_vegan filtered
        else if String.eqb pref "gluten_free" then List.filter m_is_gluten_free filtered
        else filtered
    | None => filtered
    end in
  let filtered :=
    match max_price with
    | Some mp => List.filter (λ i, num_le (m_price i) mp) filtered
    | None => filtered
    end in
  let filtered :=
    match exclude_allergens with
    | Some allergens =>
        fold_left (λ acc allergen, List.filter (allergen_free allergen) acc)
                  allergens filtered
    | None => filtered
    end in
  let filtered :=
    match str_truthy category with
    | Some c => List.filter (λ i, String.eqb (lower (m_category i)) (lower c)) filtered
    | None => filtered
    end in
  filtered.

(** [next((i for i in MENU_ITEMS if i["id"] == item_id), None)] *)
Definition menu_lookup (iid : string) : option MenuItem :=
  List.find (λ i, String.eqb (m_id i) iid) MENU_ITEMS.

(** ** Reading carts through the heap *)

(** The lines a list object refers to, in order. *)
Definition read_cart (st : State) (c : loc) : option (list CartLine) :=
  refs ← list_heap st !! c;
  mapM (λ p, line_heap st !! p) refs.

Definition line_amount (l : CartLine) : num := num_mul_int (price l) (quantity l).

(** [sum(i["price"] * i["quantity"] for i in cart)] *)
Definition cart_total (lines : list CartLine) : num :=
  num_sum (line_amount <$> lines).

(** ** Replies

    Every tool answers with a dictionary: [{"error": msg}] on failure, a
    payload on success. *)

Inductive Reply (A : Type) : Type :=
| Failure (error : string)
| Success (payload : A).
#[global] Arguments Failure {A} error.
#[global] Arguments Success {A} payload.

(** [{"cart": cart, "total": total}]; [reply_cart] is the list object
    itself. *)
Record CartPayload := mkCartPayload {
  reply_cart : loc;
  reply_total : num;
}.

(** [{"order": order, "success": True, "message": ...}] *)
Record CheckoutPayload := mkCheckoutPayload {
  reply_order : Order;
  reply_success : bool;
  reply_message : string;
}.

(** ** Sessions and carts

    An operation returns [None] only when it follows a reference that the
    heap does not hold; this cannot happen in a state the server reaches
    (see [step_total] below). *)

(** [session["last_active"] = datetime.now().isoformat()] *)
Definition touch (s : Session) (now : timestamp) : Session :=
  {| cart := cart s; created_at := created_at s; last_active := now |}.

Definition create_cart (st : State) (session_id : string) (now : timestamp)
    : (string * list CartLine) * State :=
  let c := fresh (dom (list_heap st)) in
  ((session_id, []),
   {| list_heap := <[c := []]> (list_heap st);
      line_heap := line_heap st;
      ACTIVE_SESSIONS :=
        <[session_id := {| cart := c; created_at := now; last_active := now |}]>
          (ACTIVE_SESSIONS st);
      ORDERS := ORDERS st |}).

(** The [for cart_item in cart: if cart_item["item_id"] == item_id: ... break]
    loop: the first line of the cart for [iid], or [None] when the loop runs
    to its [else] branch. *)
Fixpoint find_line (lines : gmap loc CartLine) (refs : list loc) (iid : string)
    : option (option loc) :=
  match refs with
  | [] => Some None
  | p :: rest =>
      ln ← lines !! p;
      if decide (item_id ln = iid) then Some (Some p)
      else find_line lines rest iid
  end.

(** [{"item_id": item_id, "name": item["name"], "price": item["price"],
     "quantity": quantity}] *)
Definition new_line (item : MenuItem) (iid : string) (q : Z) : CartLine :=
  {| item_id := iid; name := m_name item; price := m_price item; quantity := q |}.

(** [cart_item["quantity"] += quantity] *)
Definition add_quantity (ln : CartLine) (q : Z) : CartLine :=
  {| item_id := item_id ln; name := name ln; price := price ln;
     quantity := quantity ln + q |}.

Definition add_to_cart (st : State) (session_id iid : string) (q : Z)
    (now : timestamp) : option (Reply CartPayload * State) :=
  match ACTIVE_SESSIONS st !! session_id with
  | None => Some (Failure "Invalid session ID", st)
  | Some session =>
      match menu_lookup iid with
      | None => Some (Failure ("Item '" +:+ iid +:+ "' not found"), st)
      | Some item =>
          let c := cart session in
          refs ← list_heap st !! c;
          found ← find_line (line_heap st) refs iid;
          heaps ←
            match found with
            | Some p =>
                ln ← line_heap st !! p;
                Some (list_heap st, <[p := add_quantity ln q]> (line_heap st))
            | None =>
                let p := fresh (dom (line_heap st)) in
                Some (<[c := refs ++ [p]]> (list_heap st),
                      <[p := new_line item iid q]> (line_heap st))
            end;
          let st' :=
            {| list_heap := heaps.1; line_heap := heaps.2;
               ACTIVE_SESSIONS :=
                 <[session_id := touch session now]> (ACTIVE_SESSIONS st);
               ORDERS := ORDERS st |} in
          lines ← read_cart st' c;
          Some (Success {| reply_cart := c; reply_total := cart_total lines |}, st')
      end
  end.

(** [[i for i in cart if i["item_id"] != item_id]] *)
Fixpoint other_lines (lines : gmap loc CartLine) (refs : list loc) (iid : string)
    : option (list loc) :=
  match refs with
  | [] => Some []
  | p :: rest =>
      ln ← lines !! p;
      kept ← other_lines lines rest iid;
      Some (if decide (item_id ln ≠ iid) then p :: kept else kept)
  end.

Definition remove_from_cart (st : State) (session_id iid : string)
    (now : timestamp) : option (Reply CartPayload * State) :=
  match ACTIVE_SESSIONS st !! session_id with
  | None => Some (Failure "Invalid session ID", st)
  | Some session =>
      refs ← list_heap st !! cart session;
      kept ← other_lines (line_heap st) refs iid;
      let c' := fresh (dom (list_heap st)) in
      let st' :=
        {| list_heap := <[c' := kept]> (list_heap st);
           line_heap := line_heap st;
           ACTIVE_SESSIONS :=
             <[session_id := {| cart := c'; created_at := created_at session;
                                last_active := now |}]> (ACTIVE_SESSIONS st);
           ORDERS := ORDERS st |} in
      lines ← read_cart st' c';
      Some (Success {| reply_cart := c'; reply_total := cart_total lines |}, st')
  end.

Definition get_cart (st : State) (session_id : string)
    : option (Reply CartPayload) :=
  match ACTIVE_SESSIONS st !! session_id with
  | None => Some (Failure "Invalid session ID")
  | Some session =>
      lines ← read_cart st (cart session);
      Some (Success {| reply_cart := cart session;
                       reply_total := cart_total lines |})
  end.

(** ** Checkout and orders *)

(** [f"ORD-{uuid4().hex[:8].upper()}"]; [hex] is the reading of
    [uuid4().hex]. *)
Definition make_order_id (hex : string) : string :=
  "ORD-" +:+ upper (substring 0 8 hex).

(** [f"TXN-{uuid4().hex[:10].upper()}"] *)
Definition make_transaction_id (hex : string) : string :=
  "TXN-" +:+ upper (substring 0 10 hex).

(** [(payment_info or {}).get('method', 'credit_card')] *)
Definition payment_method (payment : option (gmap string json)) : json :=
  default (JString "credit_card") (default ∅ payment !! "method").

Definition checkout (st : State) (session_id : string)
    (customer payment : option (gmap string json))
    (order_hex : string) (order_time : timestamp) (txn_hex : string)
    (now : timestamp) : option (Reply CheckoutPayload * State) :=
  match ACTIVE_SESSIONS st !! session_id with
  | None => Some (Failure "Invalid session ID", st)
  | Some session =>
      let c := cart session in
      refs ← list_heap st !! c;
      match refs with
      | [] => Some (Failure "Cannot checkout with empty cart", st)
      | _ :: _ =>
          lines ← read_cart st c;
          let oid := make_order_id order_hex in
          let order :=
            {| order_id := oid;
               items := c;
               total := cart_total lines;
               status := "confirmed";
               order_created_at := order_time;
               customer_info := default ∅ customer;
               payment_info :=
                 {| method := payment_method payment;
                    payment_status := "approved";
                    transaction_id := make_transaction_id txn_hex |} |} in
          let c' := fresh (dom (list_heap st)) in
          Some (Success {| reply_order := order; reply_success := true;
                           reply_message := "Order placed successfully" |},
                {| list_heap := <[c' := []]> (list_heap st);
                   line_heap := line_heap st;
                   ACTIVE_SESSIONS :=
                     <[session_id := {| cart := c';
                                        created_at := created_at session;
                                        last_active := now |}]>
                       (ACTIVE_SESSIONS st);
                   ORDERS := <[oid := order]> (ORDERS st) |})
      end
  end.

Definition get_order_status (st : State) (oid : string) : Reply Order :=
  match ORDERS st !! oid with
  | None => Failure ("Order '" +:+ oid +:+ "' not found")
  | Some order => Success order
  end.

(** ** Runs of the server

    The state-changing tool calls, each with the readings of the clock and
    of the identifier generator it consumes. *)

Inductive Op : Type :=
| OpCreateCart (session_id : string) (now : timestamp)
| OpAddToCart (session_id iid : string) (q : Z) (now : timestamp)
| OpRemoveFromCart (session_id iid : string) (now : timestamp)
| OpCheckout (session_id : string) (customer payment : option (gmap string json))
             (order_hex : string) (order_time : timestamp) (txn_hex : string)
             (now : timestamp).

Definition step (st : State) (op : Op) : option State :=
  match op with
  | OpCreateCart sid now => Some (create_cart st sid now).2
  | OpAddToCart sid iid q now => snd <$> add_to_cart st sid iid q now
  | OpRemoveFromCart sid iid now => snd <$> remove_from_cart st sid iid now
  | OpCheckout sid cu pa oh ot th now => snd <$> checkout st sid cu pa oh ot th now
  end.

Fixpoint run (st : State) (ops : list Op) : option State :=
  match ops with
  | [] => Some st
  | op :: rest => st' ← step st op; run st' rest
  end.

(** The states the server can be in: those a run from start-up leads to. *)
Definition reachable (st : State) : Prop :=
  ∃ ops, run initial_state ops = Some st.

End Server.

#[global] Arguments MenuItem : clear implicits.
#[global] Arguments CartLine : clear implicits.
#[global] Arguments Order : clear implicits.
#[global] Arguments State : clear implicits.
#[global] Arguments CartPayload : clear implicits.
#[global] Arguments CheckoutPayload : clear implicits.

(** ** Carts as values

    What the cart operations do to the sequence of lines of a cart. *)

Section CartValues.

Context {num : Type}.

(** The lines left by [[i for i in cart if i["item_id"] != item_id]]. *)
Definition lines_without (iid : string) (lines : list (CartLine num))
    : list (CartLine num) :=
  filter (λ l, item_id l ≠ iid) lines.

(** The lines after [quantity] has been added to the line of [iid]. *)
Definition lines_bumped (iid : string) (q : Z) (lines : list (CartLine num))
    : list (CartLine num) :=
  (λ l, if decide (item_id l = iid) then add_quantity l q else l) <$> lines.

(** The item identifiers of a cart, in order. *)
Definition cart_ids (lines : list (CartLine num)) : list string :=
  item_id <$> lines.

(** The state [remove_from_cart] leaves: the session points to a new list
    object that holds the kept references. *)
Definition removed_state (st : State num) (sid : string) (session : Session)
    (kept : list loc) (now : timestamp) : State num :=
  {| list_heap := <[fresh (dom (list_heap st)) := kept]> (list_heap st);
     line_heap := line_heap st;
     ACTIVE_SESSIONS :=
       <[sid := {| cart := fresh (dom (list_heap st));
                   created_at := created_at session;
                   last_active := now |}]> (ACTIVE_SESSIONS st);
     ORDERS := ORDERS st |}.

(** The state [add_to_cart] leaves when the cart has a line [ln] for the
    item at [p]: the line is updated in place. *)
Definition bumped_state (st : State num) (sid : string) (session : Session)
    (p : loc) (ln : CartLine num) (q : Z) (now : timestamp) : State num :=
  {| list_heap := list_heap st;
     line_heap := <[p := add_quantity ln q]> (line_heap st);
     ACTIVE_SESSIONS := <[sid := touch session now]> (ACTIVE_SESSIONS st);
     ORDERS := ORDERS st |}.

(** The state [add_to_cart] leaves when the cart has no line for the item:
    a new line object is appended to the session's list object. *)
Definition appended_state (st : State num) (sid : string) (session : Session)
    (refs : list loc) (ln : CartLine num) (now : timestamp) : State num :=
  {| list_heap :=
       <[cart session := refs ++ [fresh (dom (line_heap st))]]> (list_heap st);
     line_heap := <[fresh (dom (line_heap st)) := ln]> (line_heap st);
     ACTIVE_SESSIONS := <[sid := touch session now]> (ACTIVE_SESSIONS st);
     ORDERS := ORDERS st |}.

End CartValues.

(** ** Invariants of the reachable states *)

Section Invariants.

Context {num : Type}.

(** The order [checkout] builds for a session whose cart reads [lines]. *)
Definition placed_order `{PyNumber num} (session : Session)
    (lines : list (CartLine num)) (customer payment : option (gmap string json))
    (order_hex : string) (order_time : timestamp) (txn_hex : string)
    : Order num :=
  {| order_id := make_order_id order_hex;
     items := cart session;
     total := cart_total lines;
     status := "confirmed";
     order_created_at := order_time;
     customer_info := default ∅ customer;
     payment_info :=
       {| method := payment_method payment;
          payment_status := "approved";
          transaction_id := make_transaction_id txn_hex |} |}.

(** The state a successful [checkout] leaves: the order is stored, and the
    session points to a new, empty list object. *)
Definition checked_out_state (st : State num) (sid : string) (session : Session)
    (order : Order num) (now : timestamp) : State num :=
  {| list_heap := <[fresh (dom (list_heap st)) := []]> (list_heap st);
     line_heap := line_heap st;
     ACTIVE_SESSIONS :=
       <[sid := {| cart := fresh (dom (list_heap st));
                   created_at := created_at session;
                   last_active := now |}]> (ACTIVE_SESSIONS st);
     ORDERS := <[order_id order := order]> (ORDERS st) |}.

(** The references a list object holds (none for an address not in use). *)
Definition refs_of (lists : gmap loc (list loc)) (c : loc) : list loc :=
  default [] (lists !! c).

Definition cart_refs (st : State num) (c : loc) : list loc :=
  refs_of (list_heap st) c.

(** Two list objects are apart when they are different objects and share no
    line object. *)
Definition apart (st : State num) (c1 c2 : loc) : Prop :=
  c1 ≠ c2 ∧ ∀ p, p ∈ cart_refs st c1 → p ∉ cart_refs st c2.

(** A list object is out of reach of the sessions when it can be read and is
    apart from the cart of every session. *)
Definition out_of_reach (st : State num) (c : loc) : Prop :=
  is_Some (read_cart st c) ∧
  ∀ sid s, ACTIVE_SESSIONS st !! sid = Some s → apart st (cart s) c.

Record state_inv (st : State num) : Prop := {
  (* every session's cart can be read: no dangling reference *)
  inv_readable : ∀ sid s,
    ACTIVE_SESSIONS st !! sid = Some s → is_Some (read_cart st (cart s));
  (* sessions do not share list objects or line objects *)
  inv_sessions_apart : ∀ sid1 sid2 s1 s2,
    sid1 ≠ sid2 →
    ACTIVE_SESSIONS st !! sid1 = Some s1 →
    ACTIVE_SESSIONS st !! sid2 = Some s2 →
    apart st (cart s1) (cart s2);
  (* at most one line per item in every cart *)
  inv_one_line : ∀ sid s lines,
    ACTIVE_SESSIONS st !! sid = Some s →
    read_cart st (cart s) = Some lines → NoDup (cart_ids lines);
  (* the items of every order are out of reach of the sessions *)
  inv_orders : ∀ oid o,
    ORDERS st !! oid = Some o → out_of_reach st (items o);
}.

(** The changes of state the tools make, with the session they act for. *)
Inductive transition (st : State num) (sid : string) : State num → Prop :=
| t_create now :
    transition st sid (create_cart st sid now).2
| t_append session refs ln now :
    ACTIVE_SESSIONS st !! sid = Some session →
    list_heap st !! cart session = Some refs →
    find_line (line_heap st) refs (item_id ln) = Some None →
    transition st sid (appended_state st sid session refs ln now)
| t_bump session refs p ln q now :
    ACTIVE_SESSIONS st !! sid = Some session →
    list_heap st !! cart session = Some refs →
    p ∈ refs →
    line_heap st !! p = Some ln →
    transition st sid (bumped_state st sid session p ln q now)
| t_remove session refs iid kept now :
    ACTIVE_SESSIONS st !! sid = Some session →
    list_heap st !! cart session = Some refs →
    other_lines (line_heap st) refs iid = Some kept →
    transition st sid (removed_state st sid session kept now)
| t_checkout session order now :
    ACTIVE_SESSIONS st !! sid = Some session →
    items order = cart session →
    transition st sid (checked_out_state st sid session order now).

End Invariants.

(** ** Readings of the environment *)

(** The clock reading a tool call stores in [last_active] when it succeeds. *)
Definition op_now (op : Op) : timestamp :=
  match op with
  | OpCreateCart _ now => now
  | OpAddToCart _ _ _ now => now
  | OpRemoveFromCart _ _ now => now
  | OpCheckout _ _ _ _ _ _ now => now
  end.

(** The clock does not go back: the readings of a run are non-decreasing,
    starting from [t]. *)
Fixpoint clock_from (t : timestamp) (ops : list Op) : Prop :=
  match ops with
  | [] => True
  | op :: rest => (t ≤ op_now op)%Z ∧ clock_from (op_now op) rest
  end.

(** The identifier generator does not repeat itself: a tool call does not
    draw the order id [oid] again. *)
Definition draws_other_id (oid : string) (op : Op) : Prop :=
  match op with
  | OpCheckout _ _ _ order_hex _ _ _ => make_order_id order_hex ≠ oid
  | _ => True
  end.

(** ** The other menu tools *)

Section MenuTools.

Context {num : Type} {str : PyStr}.
Variable MENU_ITEMS : list (MenuItem num).

(** [sorted(list(set(item["category"] for item in MENU_ITEMS)))]: the
    distinct categories, in increasing order.  Strings compare character by
    character; the set has no order of its own, and the sort fixes one. *)
Definition get_menu_categories : list string :=
  merge_sort String.le (remove_dups (m_category <$> MENU_ITEMS)).

(** [[item for item in MENU_ITEMS if item["category"] == category]] *)
Definition list_items_by_category (category : string) : list (MenuItem num) :=
  List.filter (λ item, String.eqb (m_category item) category) MENU_ITEMS.

(** The test of the loop of [get_item_details]:
    [item["id"] == item_identifier or
     item["name"].lower() == item_identifier.lower()]. *)
Definition identifies (item_identifier : string) (item : MenuItem num) : bool :=
  String.eqb (m_id item) item_identifier
  || String.eqb (lower (m_name item)) (lower item_identifier).

Definition get_item_details (item_identifier : string) : Reply (MenuItem num) :=
  match List.find (identifies item_identifier) MENU_ITEMS with
  | Some item => Success item
  | None => Failure ("Item '" +:+ item_identifier +:+ "' not found")
  end.

End MenuTools.

(** The session a tool call is made for. *)
Definition op_session (op : Op) : string :=
  match op with
  | OpCreateCart sid _ => sid
  | OpAddToCart sid _ _ _ => sid
  | OpRemoveFromCart sid _ _ => sid
  | OpCheckout sid _ _ _ _ _ _ => sid
  end.

(** A tool call that is not [create_cart] for the session [sid]. *)
Definition keeps_session (sid : string) (op : Op) : Prop :=
  match op with
  | OpCreateCart sid' _ => sid' ≠ sid
  | _ => True
  end.

(** ** What the stored lines and orders look like *)

Section Stored.

Context {num : Type} `{PyNumber num}.
Variable MENU_ITEMS : list (MenuItem num).

(** A line carries the name and the price the menu has for its item. *)
Definition line_from_menu (ln : CartLine num) : Prop :=
  ∃ item, menu_lookup MENU_ITEMS (item_id ln) = Some item ∧
          name ln = m_name item ∧ price ln = m_price item.

(** An order stored under [oid] is as [checkout] built it: it carries its
    key, the fixed status and payment status, prefixed identifiers, and the
    total of its items, of which there is at least one. *)
Definition order_as_placed (st : State num) (oid : string) (o : Order num)
    : Prop :=
  order_id o = oid ∧
  String.prefix "ORD-" oid = true ∧
  String.prefix "TXN-" (transaction_id (payment_info o)) = true ∧
  status o = "confirmed" ∧
  payment_status (payment_info o) = "approved" ∧
  ∃ lines, read_cart st (items o) = Some lines ∧ lines ≠ [] ∧
           total o = cart_total lines.

End Stored.

(** ** A small menu and a few states, with prices in cents *)

Module Example.

Definition burger : MenuItem Z :=
  {| m_id := "burger-01"; m_name := "Burger"; m_category := "Mains";
     m_price := 850; m_is_vegetarian := false; m_is_vegan := false;
     m_is_gluten_free := false; m_allergens := ["gluten"; "dairy"] |}.

Definition salad : MenuItem Z :=
  {| m_id := "salad-01"; m_name := "Garden Salad"; m_category := "Starters";
     m_price := 600; m_is_vegetarian := true; m_is_vegan := true;
     m_is_gluten_free := true; m_allergens := [] |}.

Definition menu : list (MenuItem Z) := [burger; salad].

(** The state a run of tool calls leads to from start-up. *)
Definition state_after (ops : list Op) : State Z :=
  default initial_state (run menu initial_state ops).

(** Session "s1", just created at time 10. *)
Definition created : State Z := state_after [OpCreateCart "s1" 10].

(** Session "s1" with two burgers in its cart, added at time 11. *)
Definition burger_cart : State Z :=
  state_after [OpCreateCart "s1" 10; OpAddToCart "s1" "burger-01" 2 11].

(** Two readings of [uuid4().hex]. *)
Definition hex1 : string := "3f2a9c4be1d04c7f8a6b5d4c3b2a1908".
Definition hex2 : string := "a1b2c3d4e5f60718293a4b5c6d7e8f90".

(** A later run on the session: more burgers, a salad, a removal and a second
    checkout, which draws another order id. *)
Definition later_ops : list Op :=
  [OpAddToCart "s1" "burger-01" 3 14;
   OpAddToCart "s1" "salad-01" 1 15;
   OpRemoveFromCart "s1" "burger-01" 16;
   OpCheckout "s1" None None hex2 17 hex1 18].

(** The line of the cart for [q] burgers. *)
Definition burger_line (q : Z) : CartLine Z :=
  {| item_id := "burger-01"; name := "Burger"; price := 850; quantity := q |}.

(** The entry of session "s1" in [created] and in [burger_cart]. *)
Definition new_session : Session :=
  {| cart := 1%positive; created_at := 10; last_active := 10 |}.

Definition burger_session : Session :=
  {| cart := 1%positive; created_at := 10; last_active := 11 |}.

(** The menu in another order. *)
Definition menu_reversed : list (MenuItem Z) := [salad; burger].

(** Two sessions: "s1" with two burgers, and "s2", created at time 12. *)
Definition two_sessions_ops : list Op :=
  [OpCreateCart "s1" 10; OpAddToCart "s1" "burger-01" 2 11; OpCreateCart "s2" 12].

Definition two_sessions : State Z := state_after two_sessions_ops.

(** A salad for "s2", at time 13. *)
Definition salad_for_s2 : Op := OpAddToCart "s2" "salad-01" 1 13.

Definition two_sessions_after : State Z :=
  state_after (two_sessions_ops ++ [salad_for_s2]).

(** Session "s1" has checked out its two burgers. *)
Definition checked_out_ops : list Op :=
  [OpCreateCart "s1" 10; OpAddToCart "s1" "burger-01" 2 11;
   OpCheckout "s1" None None hex1 12 hex2 13].

Definition checked_out : State Z := state_after checked_out_ops.

Definition first_order : Order Z :=
  placed_order burger_session [burger_line 2] None None hex1 12 hex2.

(** The state after the later run on the session. *)
Definition after_later_ops : State Z := state_after (checked_out_ops ++ later_ops).

(** Another reading of [uuid4().hex]; its first eight digits are those of
    [hex1]. *)
Definition hex3 : string := "3f2a9c4b7e6d4f5a9b8c0d1e2f3a4b5c".

(** The line of the cart for [q] salads. *)
Definition salad_line (q : Z) : CartLine Z :=
  {| item_id := "salad-01"; name := "Garden Salad"; price := 600; quantity := q |}.

(** A salad and a second checkout on the session, at which [uuid4()] reads
    [hex3]. *)
Definition repeated_id_ops : list Op :=
  [OpAddToCart "s1" "salad-01" 1 14;
   OpCheckout "s1" None None hex3 15 hex2 16].

End Example.

(** * Properties *)

Section Properties.

Context {num : Type} `{PyNumber num} {str : PyStr}.
Variable MENU_ITEMS : list (MenuItem num).

Implicit Types (st : State num) (lines : list (CartLine num)) (refs : list loc).

(** ** Reading carts *)

(** The total of the empty cart is 0. *)
Lemma cart_total_nil : cart_total (num:=num) [] = num_zero.
Proof. apply num_sum_nil. Qed.

Lemma read_cart_Some st c lines :
  read_cart st c = Some lines ↔
  ∃ refs, list_heap st !! c = Some refs ∧
          Forall2 (λ p l, line_heap st !! p = Some l) refs lines.
Proof.
  unfold read_cart. rewrite bind_Some.
  split; intros (refs & Hc & Hl); exists refs; split; auto; by apply mapM_Some.
Qed.

Lemma read_cart_nil st c :
  read_cart st c = Some [] ↔ list_heap st !! c = Some [].
Proof.
  rewrite read_cart_Some. split.
  - intros (refs & Hc & Hl). by inversion Hl; subst.
  - intros Hc. exists []. split; [done | constructor].
Qed.

(** A cart reads the same after a change of the heaps that leaves its list
    object and the lines it refers to alone. *)
Lemma read_cart_frame st st' c refs :
  list_heap st !! c = Some refs →
  list_heap st' !! c = Some refs →
  (∀ p, p ∈ refs → line_heap st' !! p = line_heap st !! p) →
  read_cart st' c = read_cart st c.
Proof.
  intros Hc Hc' Hp. unfold read_cart. rewrite Hc, Hc'. simpl.
  apply Forall_mapM_ext, Forall_forall. exact Hp.
Qed.

Lemma fresh_list_loc st c :
  is_Some (list_heap st !! c) → fresh (dom (list_heap st)) ≠ c.
Proof.
  intros Hc <-. apply elem_of_dom in Hc. by apply is_fresh in Hc.
Qed.

Lemma fresh_list_lookup st : list_heap st !! fresh (dom (list_heap st)) = None.
Proof. apply not_elem_of_dom, is_fresh. Qed.

Lemma fresh_line_loc st p :
  is_Some (line_heap st !! p) → fresh (dom (line_heap st)) ≠ p.
Proof.
  intros Hp <-. apply elem_of_dom in Hp. by apply is_fresh in Hp.
Qed.

(** ** Checkout *)

(** Checkout of a cart that is not empty places the order. *)
Lemma checkout_nonempty st sid session lines cu pa oh ot th now :
  ACTIVE_SESSIONS st !! sid = Some session →
  read_cart st (cart session) = Some lines →
  lines ≠ [] →
  checkout st sid cu pa oh ot th now =
    Some (Success {| reply_order := placed_order session lines cu pa oh ot th;
                     reply_success := true;
                     reply_message := "Order placed successfully" |},
          checked_out_state st sid session
            (placed_order session lines cu pa oh ot th) now).
Proof.
  intros Hs Hr Hne.
  pose proof Hr as (refs & Hc & Hl)%read_cart_Some.
  destruct refs as [|p refs].
  { inversion Hl; subst. done. }
  unfold checkout. rewrite Hs. simpl. rewrite Hc. simpl. rewrite Hr. simpl.
  reflexivity.
Qed.

Lemma checkout_empty st sid session cu pa oh ot th now :
  ACTIVE_SESSIONS st !! sid = Some session →
  read_cart st (cart session) = Some [] →
  checkout st sid cu pa oh ot th now =
    Some (Failure "Cannot checkout with empty cart", st).
Proof.
  intros Hs Hc%read_cart_nil.
  unfold checkout. rewrite Hs. simpl. by rewrite Hc.
Qed.

(** After a checkout the list object that was the cart reads as before, and
    the session's new cart is empty. *)
Lemma checked_out_reads st sid session order now lines :
  read_cart st (cart session) = Some lines →
  read_cart (checked_out_state st sid session order now) (cart session)
    = Some lines ∧
  read_cart (checked_out_state st sid session order now)
            (fresh (dom (list_heap st))) = Some [].
Proof.
  intros Hr. pose proof Hr as (refs & Hc & Hl)%read_cart_Some. split.
  - rewrite <- Hr. apply (read_cart_frame _ _ _ refs); [done| |done].
    simpl. rewrite lookup_insert_ne; [done|]. apply fresh_list_loc. eauto.
  - apply read_cart_nil. simpl. by rewrite lookup_insert_eq.
Qed.

(** C1. Checkout of a session whose cart is not empty succeeds; the order it
    returns (and stores under its id) has the lines and the computed total
    the cart had just before, status "confirmed" and payment status
    "approved"; just after, the session's cart is empty. *)
Theorem checkout_places_order st sid session lines cu pa oh ot th now :
  ACTIVE_SESSIONS st !! sid = Some session →
  read_cart st (cart session) = Some lines →
  lines ≠ [] →
  ∃ order st' session',
    checkout st sid cu pa oh ot th now =
      Some (Success {| reply_order := order; reply_success := true;
                       reply_message := "Order placed successfully" |}, st') ∧
    read_cart st' (items order) = Some lines ∧
    total order = cart_total lines ∧
    status order = "confirmed" ∧
    payment_status (payment_info order) = "approved" ∧
    get_order_status st' (order_id order) = Success order ∧
    ACTIVE_SESSIONS st' !! sid = Some session' ∧
    read_cart st' (cart session') = Some [] ∧
    get_cart st' sid =
      Some (Success {| reply_cart := cart session'; reply_total := num_zero |}).
Proof.
  intros Hs Hr Hne.
  pose proof (checkout_nonempty st sid session lines cu pa oh ot th now Hs Hr Hne)
    as Hco.
  set (order := placed_order session lines cu pa oh ot th) in *.
  destruct (checked_out_reads st sid session order now lines Hr) as [Hitems Hnew].
  eexists order, _, _. split; [exact Hco|].
  assert (Hs' : ACTIVE_SESSIONS (checked_out_state st sid session order now) !! sid
                = Some {| cart := fresh (dom (list_heap st));
                          created_at := created_at session;
                          last_active := now |})
    by (simpl; by rewrite lookup_insert_eq).
  split; [exact Hitems|]. do 3 (split; [reflexivity|]).
  split. { unfold get_order_status. simpl. by rewrite lookup_insert_eq. }
  split; [exact Hs'|]. split; [exact Hnew|].
  unfold get_cart. rewrite Hs'. simpl. rewrite Hnew. simpl.
  by rewrite cart_total_nil.
Qed.

(** C2. Checkout of a session whose cart has no line answers with an error
    and changes nothing: no order is created and the cart stays as it is. *)
Theorem checkout_empty_cart_rejected st sid session cu pa oh ot th now :
  ACTIVE_SESSIONS st !! sid = Some session →
  read_cart st (cart session) = Some [] →
  ∃ st',
    checkout st sid cu pa oh ot th now =
      Some (Failure "Cannot checkout with empty cart", st') ∧
    ORDERS st' = ORDERS st ∧
    ACTIVE_SESSIONS st' !! sid = Some session ∧
    read_cart st' (cart session) = Some [] ∧
    st' = st.
Proof.
  intros Hs Hr. exists st. split; [by apply (checkout_empty st sid session)|]. done.
Qed.

(** C10. In a successful checkout, an omitted [customer_info] is recorded as
    the empty dictionary, and a [payment_info] that is omitted or has no
    'method' key gives the payment method "credit_card". *)
Theorem checkout_defaults st sid cu pa oh ot th now payload st' :
  checkout st sid cu pa oh ot th now = Some (Success payload, st') →
  (cu = None → customer_info (reply_order payload) = ∅) ∧
  (pa = None ∨ (∃ d, pa = Some d ∧ d !! "method" = None) →
   method (payment_info (reply_order payload)) = JString "credit_card").
Proof.
  unfold checkout. intros Hco.
  destruct (ACTIVE_SESSIONS st !! sid) as [session|]; [|done].
  simpl in Hco.
  destruct (list_heap st !! cart session) as [[|p refs]|]; simpl in Hco; try done.
  destruct (read_cart st (cart session)) as [lines|]; simpl in Hco; [|done].
  injection Hco as <- <-. simpl. split.
  - by intros ->.
  - unfold payment_method. intros [-> | (d & -> & Hd)]; simpl.
    + by rewrite lookup_empty.
    + by rewrite Hd.
Qed.

(** ** Removing lines *)

Lemma other_lines_spec (heap : gmap loc (CartLine num)) refs lines iid :
  Forall2 (λ p l, heap !! p = Some l) refs lines →
  ∃ kept, other_lines heap refs iid = Some kept ∧
          Forall2 (λ p l, heap !! p = Some l) kept (lines_without iid lines) ∧
          kept ⊆ refs.
Proof.
  induction 1 as [|p l refs lines Hp Hrest (kept & Hk & Hf & Hsub)]; simpl.
  - exists []. split; [done|]. split; [constructor | done].
  - rewrite Hp. simpl. rewrite Hk. simpl.
    unfold lines_without in *. rewrite filter_cons.
    destruct (decide (item_id l ≠ iid)).
    + exists (p :: kept). split; [done|]. split; [by constructor|].
      by apply list_subseteq_skip.
    + exists kept. split; [done|]. split; [done|].
      by apply list_subseteq_cons.
Qed.

Lemma lines_without_idemp iid lines :
  lines_without iid (lines_without iid lines) = lines_without iid lines.
Proof.
  unfold lines_without. induction lines as [|l lines IH]; [done|].
  rewrite filter_cons. destruct (decide (item_id l ≠ iid)); [|done].
  rewrite filter_cons. destruct (decide (item_id l ≠ iid)); [|done].
  by rewrite IH.
Qed.

Lemma lines_without_absent iid lines :
  iid ∉ cart_ids lines → lines_without iid lines = lines.
Proof.
  unfold lines_without, cart_ids. induction lines as [|l lines IH]; [done|].
  rewrite fmap_cons, not_elem_of_cons. intros [Hne Hnin].
  rewrite filter_cons. destruct (decide (item_id l ≠ iid)); [|done].
  by rewrite IH.
Qed.

(** What [remove_from_cart] does for an existing session: the session gets a
    new list object holding the references to the lines of the other items. *)
Lemma remove_from_cart_spec st sid session lines iid now :
  ACTIVE_SESSIONS st !! sid = Some session →
  read_cart st (cart session) = Some lines →
  ∃ refs kept,
    list_heap st !! cart session = Some refs ∧
    other_lines (line_heap st) refs iid = Some kept ∧
    remove_from_cart st sid iid now =
      Some (Success {| reply_cart := fresh (dom (list_heap st));
                       reply_total := cart_total (lines_without iid lines) |},
            removed_state st sid session kept now) ∧
    read_cart (removed_state st sid session kept now) (fresh (dom (list_heap st)))
      = Some (lines_without iid lines).
Proof.
  intros Hs Hr. apply read_cart_Some in Hr as (refs & Hc & Hl).
  destruct (other_lines_spec _ _ _ iid Hl) as (kept & Hk & Hf & Hsub).
  exists refs, kept. split; [done|]. split; [done|].
  assert (Hread : read_cart (removed_state st sid session kept now)
                    (fresh (dom (list_heap st))) = Some (lines_without iid lines)).
  { apply read_cart_Some. exists kept. simpl. by rewrite lookup_insert_eq. }
  split; [|done].
  unfold remove_from_cart. rewrite Hs. simpl. rewrite Hc. simpl. rewrite Hk. simpl.
  fold (removed_state st sid session kept now). by rewrite Hread.
Qed.

(** C7. Removal is idempotent: removing an item twice in a row leaves the
    cart with the same lines and reports the same total as removing it once;
    and removing an item that has no line answers normally, with the lines
    and the total of the cart as they were. *)
Theorem remove_from_cart_idempotent st sid session lines iid now1 now2 :
  ACTIVE_SESSIONS st !! sid = Some session →
  read_cart st (cart session) = Some lines →
  ∃ reply1 st1 session1 reply2 st2 session2 lines1,
    remove_from_cart st sid iid now1 = Some (Success reply1, st1) ∧
    ACTIVE_SESSIONS st1 !! sid = Some session1 ∧
    cart session1 = reply_cart reply1 ∧
    read_cart st1 (cart session1) = Some lines1 ∧
    remove_from_cart st1 sid iid now2 = Some (Success reply2, st2) ∧
    ACTIVE_SESSIONS st2 !! sid = Some session2 ∧
    cart session2 = reply_cart reply2 ∧
    read_cart st2 (cart session2) = Some lines1 ∧
    reply_total reply2 = reply_total reply1 ∧
    (iid ∉ cart_ids lines →
     lines1 = lines ∧ reply_total reply1 = cart_total lines).
Proof.
  intros Hs Hr.
  destruct (remove_from_cart_spec st sid session lines iid now1 Hs Hr)
    as (refs & kept & Hc & Hk & Hrm1 & Hread1).
  set (st1 := removed_state st sid session kept now1) in *.
  assert (Hs1 : ACTIVE_SESSIONS st1 !! sid =
                Some {| cart := fresh (dom (list_heap st));
                        created_at := created_at session; last_active := now1 |})
    by (simpl; by rewrite lookup_insert_eq).
  destruct (remove_from_cart_spec st1 sid _ _ iid now2 Hs1 Hread1)
    as (refs1 & kept1 & Hc1 & Hk1 & Hrm2 & Hread2).
  rewrite lines_without_idemp in Hrm2, Hread2.
  eexists _, st1, _, _, _, _, (lines_without iid lines).
  split; [exact Hrm1|]. split; [exact Hs1|]. split; [done|].
  split; [exact Hread1|]. split; [exact Hrm2|].
  split; [simpl; by rewrite lookup_insert_eq|].
  split; [done|]. split; [exact Hread2|]. split; [done|].
  intros Habs. simpl. by rewrite lines_without_absent.
Qed.

(** ** Adding lines *)

Lemma find_line_absent (heap : gmap loc (CartLine num)) refs lines iid :
  Forall2 (λ p l, heap !! p = Some l) refs lines →
  iid ∉ cart_ids lines →
  find_line heap refs iid = Some None.
Proof.
  unfold cart_ids.
  induction 1 as [|p l refs lines Hp Hrest IH]; simpl; [done|].
  rewrite not_elem_of_cons. intros [Hne Hnin].
  rewrite Hp. simpl. destruct (decide (item_id l = iid)); [congruence | auto].
Qed.

Lemma find_line_present (heap : gmap loc (CartLine num)) refs lines iid :
  Forall2 (λ p l, heap !! p = Some l) refs lines →
  iid ∈ cart_ids lines →
  ∃ p ln, find_line heap refs iid = Some (Some p) ∧ p ∈ refs ∧
          heap !! p = Some ln ∧ item_id ln = iid.
Proof.
  unfold cart_ids.
  induction 1 as [|p l refs lines Hp Hrest IH]; simpl.
  - intros Hin. by apply elem_of_nil in Hin.
  - rewrite Hp. simpl. intros Hin.
    destruct (decide (item_id l = iid)) as [Heq|Hne].
    + exists p, l. repeat split; auto. apply list_elem_of_here.
    + apply elem_of_cons in Hin as [Hin|Hin]; [congruence|].
      destruct (IH Hin) as (p' & ln & Hf & Hp' & Hl & Hid).
      exists p', ln. repeat split; auto. by apply list_elem_of_further.
Qed.

Lemma find_line_result (heap : gmap loc (CartLine num)) refs iid p :
  find_line heap refs iid = Some (Some p) →
  p ∈ refs ∧ ∃ ln, heap !! p = Some ln ∧ item_id ln = iid.
Proof.
  induction refs as [|p' refs IH]; simpl; [done|].
  destruct (heap !! p') as [l|] eqn:Hp'; simpl; [|done].
  destruct (decide (item_id l = iid)) as [Heq|Hne].
  - intros [= ->]. split; [apply list_elem_of_here | eauto].
  - intros Hf. destruct (IH Hf) as [Hin Hl].
    split; [by apply list_elem_of_further | done].
Qed.

Lemma find_line_none (heap : gmap loc (CartLine num)) refs lines iid :
  Forall2 (λ p l, heap !! p = Some l) refs lines →
  find_line heap refs iid = Some None →
  iid ∉ cart_ids lines.
Proof.
  intros Hl Hf Hin.
  destruct (find_line_present _ _ _ _ Hl Hin) as (p & ln & Hf' & _).
  congruence.
Qed.

(** References held by a readable cart point into the line heap. *)
Lemma refs_in_heap (heap : gmap loc (CartLine num)) refs lines p :
  Forall2 (λ p l, heap !! p = Some l) refs lines →
  p ∈ refs → ∃ l, heap !! p = Some l ∧ l ∈ lines.
Proof.
  induction 1 as [|p' l refs lines Hp Hrest IH].
  - intros Hin. by apply elem_of_nil in Hin.
  - intros [->|Hin]%elem_of_cons.
    + exists l. split; [done | apply list_elem_of_here].
    + destruct (IH Hin) as (l' & Hl' & Hin').
      exists l'. split; [done | by apply list_elem_of_further].
Qed.

(** Updating the line of an item that occurs nowhere in a cart does not
    change what the cart reads. *)
Lemma bump_elsewhere (heap : gmap loc (CartLine num)) refs lines p ln q :
  Forall2 (λ p l, heap !! p = Some l) refs lines →
  heap !! p = Some ln →
  item_id ln ∉ cart_ids lines →
  Forall2 (λ p' l, <[p := add_quantity ln q]> heap !! p' = Some l) refs
          (lines_bumped (item_id ln) q lines).
Proof.
  unfold cart_ids, lines_bumped. intros Hl Hp.
  induction Hl as [|p' l refs lines Hp' Hrest IH]; simpl.
  - constructor.
  - rewrite not_elem_of_cons. intros [Hne Hnin].
    constructor; [|auto].
    destruct (decide (item_id l = item_id ln)); [congruence|].
    rewrite lookup_insert_ne; [done|]. intros ->. congruence.
Qed.

(** In a cart with one line per item, updating the line of an item in place
    changes that line and no other. *)
Lemma bump_in_place (heap : gmap loc (CartLine num)) refs lines p ln q :
  Forall2 (λ p l, heap !! p = Some l) refs lines →
  NoDup (cart_ids lines) →
  heap !! p = Some ln →
  p ∈ refs →
  Forall2 (λ p' l, <[p := add_quantity ln q]> heap !! p' = Some l) refs
          (lines_bumped (item_id ln) q lines).
Proof.
  intros Hl Hnd Hp. revert Hnd.
  induction Hl as [|p' l refs lines Hp' Hrest IH]; simpl.
  - intros _ Hin. by apply elem_of_nil in Hin.
  - unfold cart_ids, lines_bumped. simpl.
    intros [Hnin Hnd]%NoDup_cons Hin.
    destruct (decide (p' = p)) as [->|Hpp].
    + assert (l = ln) as -> by congruence.
      constructor.
      * rewrite decide_True by done. by rewrite lookup_insert_eq.
      * by apply bump_elsewhere.
    + apply elem_of_cons in Hin as [->|Hin]; [done|].
      constructor; [|by apply IH].
      rewrite lookup_insert_ne by done.
      destruct (decide (item_id l = item_id ln)) as [Heq|Hne]; [|done].
      destruct (refs_in_heap _ _ _ _ Hrest Hin) as (l' & Hl' & Hin').
      assert (l' = ln) as -> by congruence.
      exfalso. apply Hnin. rewrite Heq. by apply list_elem_of_fmap_2.
Qed.

Lemma Forall2_lookup_insert_fresh (heap : gmap loc (CartLine num)) refs lines p x :
  Forall2 (λ p l, heap !! p = Some l) refs lines →
  heap !! p = None →
  Forall2 (λ p' l, <[p := x]> heap !! p' = Some l) refs lines.
Proof.
  intros Hl Hp. eapply Forall2_impl; [exact Hl|].
  intros p' l Hp'. simpl in *. rewrite lookup_insert_ne; [done|]. congruence.
Qed.

Lemma fresh_line_lookup st : line_heap st !! fresh (dom (line_heap st)) = None.
Proof. apply not_elem_of_dom, is_fresh. Qed.

(** Adding an item the cart has no line for: one new line is appended. *)
Lemma add_to_cart_append st sid session item refs lines iid q now :
  ACTIVE_SESSIONS st !! sid = Some session →
  menu_lookup MENU_ITEMS iid = Some item →
  list_heap st !! cart session = Some refs →
  Forall2 (λ p l, line_heap st !! p = Some l) refs lines →
  iid ∉ cart_ids lines →
  add_to_cart MENU_ITEMS st sid iid q now =
    Some (Success {| reply_cart := cart session;
                     reply_total := cart_total (lines ++ [new_line item iid q]) |},
          appended_state st sid session refs (new_line item iid q) now) ∧
  read_cart (appended_state st sid session refs (new_line item iid q) now)
            (cart session) = Some (lines ++ [new_line item iid q]).
Proof.
  intros Hs Hm Hc Hl Habs.
  assert (Hread :
    read_cart (appended_state st sid session refs (new_line item iid q) now)
              (cart session) = Some (lines ++ [new_line item iid q])).
  { apply read_cart_Some. eexists. simpl. rewrite lookup_insert_eq.
    split; [done|]. apply Forall2_app.
    - apply Forall2_lookup_insert_fresh; [done | apply fresh_line_lookup].
    - constructor; [by rewrite lookup_insert_eq | constructor]. }
  split; [|done].
  unfold add_to_cart. rewrite Hs, Hm. simpl. rewrite Hc. simpl.
  rewrite (find_line_absent _ _ _ _ Hl Habs). simpl.
  fold (appended_state st sid session refs (new_line item iid q) now).
  by rewrite Hread.
Qed.

(** Adding an item the cart has a line for, in a cart with one line per
    item: the quantity of that line grows, nothing else changes. *)
Lemma add_to_cart_bump st sid session item refs lines iid q now :
  ACTIVE_SESSIONS st !! sid = Some session →
  menu_lookup MENU_ITEMS iid = Some item →
  list_heap st !! cart session = Some refs →
  Forall2 (λ p l, line_heap st !! p = Some l) refs lines →
  iid ∈ cart_ids lines →
  NoDup (cart_ids lines) →
  ∃ p ln,
    p ∈ refs ∧ line_heap st !! p = Some ln ∧ item_id ln = iid ∧
    add_to_cart MENU_ITEMS st sid iid q now =
      Some (Success {| reply_cart := cart session;
                       reply_total := cart_total (lines_bumped iid q lines) |},
            bumped_state st sid session p ln q now) ∧
    read_cart (bumped_state st sid session p ln q now) (cart session)
      = Some (lines_bumped iid q lines).
Proof.
  intros Hs Hm Hc Hl Hin Hnd.
  destruct (find_line_present _ _ _ _ Hl Hin) as (p & ln & Hf & Hp & Hln & Hid).
  exists p, ln. do 3 (split; [done|]).
  assert (Hread : read_cart (bumped_state st sid session p ln q now) (cart session)
                  = Some (lines_bumped iid q lines)).
  { apply read_cart_Some. exists refs. simpl. split; [done|].
    rewrite <- Hid. by apply bump_in_place. }
  split; [|done].
  unfold add_to_cart. rewrite Hs, Hm. simpl. rewrite Hc. simpl.
  rewrite Hf. simpl. rewrite Hln. simpl.
  fold (bumped_state st sid session p ln q now).
  by rewrite Hread.
Qed.

(** An in-place update keeps every cart readable. *)
Lemma read_cart_bumped st sid session p ln q now c lines :
  line_heap st !! p = Some ln →
  read_cart st c = Some lines →
  is_Some (read_cart (bumped_state st sid session p ln q now) c).
Proof.
  intros Hp (refs & Hc & Hl)%read_cart_Some.
  unfold read_cart. simpl. rewrite Hc. simpl.
  apply mapM_is_Some, Forall_forall. intros p' Hin. simpl.
  destruct (decide (p = p')) as [->|Hne].
  - rewrite lookup_insert_eq. eauto.
  - rewrite lookup_insert_ne by done.
    destruct (refs_in_heap _ _ _ _ Hl Hin) as (l & Hl' & _). eauto.
Qed.

(** [add_to_cart] with a known item succeeds on every readable cart, and
    reports the cart of the session and the total of its lines. *)
Lemma add_to_cart_succeeds st sid session item lines iid q now :
  ACTIVE_SESSIONS st !! sid = Some session →
  menu_lookup MENU_ITEMS iid = Some item →
  read_cart st (cart session) = Some lines →
  ∃ st' lines',
    add_to_cart MENU_ITEMS st sid iid q now =
      Some (Success {| reply_cart := cart session;
                       reply_total := cart_total lines' |}, st') ∧
    ACTIVE_SESSIONS st' !! sid = Some (touch session now) ∧
    read_cart st' (cart session) = Some lines'.
Proof.
  intros Hs Hm Hr. pose proof Hr as (refs & Hc & Hl)%read_cart_Some.
  destruct (decide (iid ∈ cart_ids lines)) as [Hin|Hout].
  - destruct (find_line_present _ _ _ _ Hl Hin) as (p & ln & Hf & Hp & Hln & Hid).
    destruct (read_cart_bumped st sid session p ln q now _ _ Hln Hr) as [lines' Hr'].
    exists (bumped_state st sid session p ln q now), lines'.
    split; [|split; [simpl; by rewrite lookup_insert_eq | done]].
    unfold add_to_cart. rewrite Hs, Hm. simpl. rewrite Hc. simpl.
    rewrite Hf. simpl. rewrite Hln. simpl.
    fold (bumped_state st sid session p ln q now). by rewrite Hr'.
  - destruct (add_to_cart_append st sid session item refs lines iid q now)
      as [Hadd Hr']; auto.
    eexists _, _. split; [exact Hadd|].
    split; [simpl; by rewrite lookup_insert_eq | done].
Qed.

(** ** Totals *)

(** C5. The total of a cart is the sum of price times quantity over its
    lines, 0 for the empty cart; [get_cart], [add_to_cart] and
    [remove_from_cart] report that total for the cart of the session as it
    is in the state they leave, so after every add and every remove. *)
Theorem reported_total_is_cart_sum st sid session lines :
  ACTIVE_SESSIONS st !! sid = Some session →
  read_cart st (cart session) = Some lines →
  cart_total [] = num_zero ∧
  cart_total lines = num_sum ((λ l, num_mul_int (price l) (quantity l)) <$> lines) ∧
  get_cart st sid =
    Some (Success {| reply_cart := cart session;
                     reply_total := cart_total lines |}) ∧
  (∀ iid item q now, menu_lookup MENU_ITEMS iid = Some item →
     ∃ reply st' session' lines',
       add_to_cart MENU_ITEMS st sid iid q now = Some (Success reply, st') ∧
       ACTIVE_SESSIONS st' !! sid = Some session' ∧
       reply_cart reply = cart session' ∧
       read_cart st' (cart session') = Some lines' ∧
       reply_total reply = cart_total lines') ∧
  (∀ iid now,
     ∃ reply st' session' lines',
       remove_from_cart st sid iid now = Some (Success reply, st') ∧
       ACTIVE_SESSIONS st' !! sid = Some session' ∧
       reply_cart reply = cart session' ∧
       read_cart st' (cart session') = Some lines' ∧
       reply_total reply = cart_total lines').
Proof.
  intros Hs Hr. split; [apply cart_total_nil|]. split; [reflexivity|].
  split.
  { unfold get_cart. rewrite Hs. simpl. by rewrite Hr. }
  split.
  - intros iid item q now Hm.
    destruct (add_to_cart_succeeds st sid session item lines iid q now)
      as (st' & lines' & Hadd & Hs' & Hr'); auto.
    eexists _, st', _, lines'. split; [exact Hadd|]. by split.
  - intros iid now.
    destruct (remove_from_cart_spec st sid session lines iid now Hs Hr)
      as (refs & kept & Hc & Hk & Hrm & Hr').
    eexists _, _, _, _. split; [exact Hrm|].
    split; [simpl; by rewrite lookup_insert_eq|]. by split.
Qed.

(** ** The operations, case by case *)

(** Case analysis on a tool call, on a change of state, and on the entry of
    a session after an update of the session dictionary. *)
Ltac op_cases op :=
  destruct op as [sid now|sid iid q now|sid iid now|sid cu pa oh ot th now].

Ltac transition_cases Ht :=
  destruct Ht as [now | session refs ln now Hs Hc Hf
                 | session refs p ln q now Hs Hc Hin Hln
                 | session refs iid kept now Hs Hc Hk
                 | session order now Hs Hit].

Ltac session_cases Hs' :=
  let Heq := fresh "Heq" in
  apply lookup_insert_Some in Hs' as [[-> Heq]|[Hne Hs']]; [subst|].

Lemma add_to_cart_cases st sid iid q now reply st' :
  add_to_cart MENU_ITEMS st sid iid q now = Some (reply, st') →
  (∃ msg, reply = Failure msg ∧ st' = st ∧
          (ACTIVE_SESSIONS st !! sid = None ∨ menu_lookup MENU_ITEMS iid = None)) ∨
  (∃ session item refs total,
     ACTIVE_SESSIONS st !! sid = Some session ∧
     menu_lookup MENU_ITEMS iid = Some item ∧
     list_heap st !! cart session = Some refs ∧
     reply = Success {| reply_cart := cart session; reply_total := total |} ∧
     ((find_line (line_heap st) refs iid = Some None ∧
       st' = appended_state st sid session refs (new_line item iid q) now) ∨
      (∃ p ln, p ∈ refs ∧ line_heap st !! p = Some ln ∧ item_id ln = iid ∧
               st' = bumped_state st sid session p ln q now))).
Proof.
  unfold add_to_cart. intros Hadd.
  destruct (ACTIVE_SESSIONS st !! sid) as [session|] eqn:Hs.
  2:{ injection Hadd as <- <-. left. eauto. }
  destruct (menu_lookup MENU_ITEMS iid) as [item|] eqn:Hm.
  2:{ injection Hadd as <- <-. left. eauto. }
  simpl in Hadd. right.
  destruct (list_heap st !! cart session) as [refs|] eqn:Hc; [|done].
  simpl in Hadd.
  destruct (find_line (line_heap st) refs iid) as [[p|]|] eqn:Hf; [| |done];
    simpl in Hadd.
  - destruct (find_line_result _ _ _ _ Hf) as (Hin & ln & Hln & Hid).
    rewrite Hln in Hadd. simpl in Hadd.
    fold (bumped_state st sid session p ln q now) in Hadd.
    destruct (read_cart _ _) as [lines'|]; [|done]. simpl in Hadd.
    injection Hadd as <- <-.
    exists session, item, refs, (cart_total lines').
    do 4 (split; [done|]). right. exists p, ln. eauto.
  - fold (appended_state st sid session refs (new_line item iid q) now) in Hadd.
    destruct (read_cart _ _) as [lines'|]; [|done]. simpl in Hadd.
    injection Hadd as <- <-.
    exists session, item, refs, (cart_total lines').
    do 4 (split; [done|]). left. eauto.
Qed.

Lemma remove_from_cart_cases st sid iid now reply st' :
  remove_from_cart st sid iid now = Some (reply, st') →
  (∃ msg, reply = Failure msg ∧ st' = st ∧ ACTIVE_SESSIONS st !! sid = None) ∨
  (∃ session refs kept total,
     ACTIVE_SESSIONS st !! sid = Some session ∧
     list_heap st !! cart session = Some refs ∧
     other_lines (line_heap st) refs iid = Some kept ∧
     reply = Success {| reply_cart := fresh (dom (list_heap st));
                        reply_total := total |} ∧
     st' = removed_state st sid session kept now).
Proof.
  unfold remove_from_cart. intros Hrm.
  destruct (ACTIVE_SESSIONS st !! sid) as [session|] eqn:Hs.
  2:{ injection Hrm as <- <-. left. eauto. }
  simpl in Hrm. right.
  destruct (list_heap st !! cart session) as [refs|] eqn:Hc; [|done].
  simpl in Hrm.
  destruct (other_lines (line_heap st) refs iid) as [kept|] eqn:Hk; [|done].
  simpl in Hrm. fold (removed_state st sid session kept now) in Hrm.
  destruct (read_cart _ _) as [lines'|]; [|done]. simpl in Hrm.
  injection Hrm as <- <-.
  exists session, refs, kept, (cart_total lines'). eauto 10.
Qed.

Lemma checkout_cases st sid cu pa oh ot th now reply st' :
  checkout st sid cu pa oh ot th now = Some (reply, st') →
  (∃ msg, reply = Failure msg ∧ st' = st ∧
          (ACTIVE_SESSIONS st !! sid = None ∨
           ∃ session, ACTIVE_SESSIONS st !! sid = Some session ∧
                      list_heap st !! cart session = Some [])) ∨
  (∃ session order,
     ACTIVE_SESSIONS st !! sid = Some session ∧
     items order = cart session ∧
     order_id order = make_order_id oh ∧
     reply = Success {| reply_order := order; reply_success := true;
                        reply_message := "Order placed successfully" |} ∧
     st' = checked_out_state st sid session order now).
Proof.
  unfold checkout. intros Hco.
  destruct (ACTIVE_SESSIONS st !! sid) as [session|] eqn:Hs.
  2:{ injection Hco as <- <-. left. eauto. }
  simpl in Hco.
  destruct (list_heap st !! cart session) as [[|p refs]|] eqn:Hc; [| |done];
    simpl in Hco.
  { injection Hco as <- <-. left. eauto 10. }
  destruct (read_cart st (cart session)) as [lines|]; [|done]. simpl in Hco.
  injection Hco as <- <-. right.
  eexists session, (mkOrder _ _ _ _ _ _ _). split; [done|].
  split; [reflexivity|]. split; [reflexivity|]. split; reflexivity.
Qed.

Lemma step_transition st op st' :
  step MENU_ITEMS st op = Some st' → st' = st ∨ ∃ sid, transition st sid st'.
Proof.
  op_cases op; simpl.
  - intros [= <-]. right. exists sid. constructor.
  - intros ([reply st1] & Hadd & ->)%fmap_Some. simpl.
    destruct (add_to_cart_cases _ _ _ _ _ _ _ Hadd)
      as [(msg & _ & -> & _) |
          (session & item & refs & tot & Hs & Hm & Hc & _ &
           [[Hf ->] | (p & ln & Hin & Hln & Hid & ->)])].
    + by left.
    + right. exists sid. by eapply t_append.
    + right. exists sid. by eapply t_bump.
  - intros ([reply st1] & Hrm & ->)%fmap_Some. simpl.
    destruct (remove_from_cart_cases _ _ _ _ _ _ Hrm)
      as [(msg & _ & -> & _) | (session & refs & kept & tot & Hs & Hc & Hk & _ & ->)].
    + by left.
    + right. exists sid. by eapply t_remove.
  - intros ([reply st1] & Hco & ->)%fmap_Some. simpl.
    destruct (checkout_cases _ _ _ _ _ _ _ _ _ _ Hco)
      as [(msg & _ & -> & _) | (session & order & Hs & Hit & _ & _ & ->)].
    + by left.
    + right. exists sid. by eapply t_checkout.
Qed.

(** ** Lists out of reach of the sessions *)

Lemma refs_of_lookup (lists : gmap loc (list loc)) c refs :
  lists !! c = Some refs → refs_of lists c = refs.
Proof. unfold refs_of. by intros ->. Qed.

Lemma refs_of_insert (lists : gmap loc (list loc)) c r c2 :
  refs_of (<[c := r]> lists) c2 = if decide (c = c2) then r else refs_of lists c2.
Proof.
  unfold refs_of. destruct (decide (c = c2)) as [->|Hne].
  - by rewrite lookup_insert_eq.
  - by rewrite lookup_insert_ne.
Qed.

Lemma other_lines_subseteq (heap : gmap loc (CartLine num)) refs iid kept :
  other_lines heap refs iid = Some kept → kept ⊆ refs.
Proof.
  revert kept. induction refs as [|p refs IH]; simpl; intros kept.
  - by intros [= <-].
  - destruct (heap !! p) as [l|]; simpl; [|done].
    destruct (other_lines heap refs iid) as [k|]; simpl; [|done].
    intros [= <-]. destruct (decide (item_id l ≠ iid)).
    + by apply list_subseteq_skip, IH.
    + by apply list_subseteq_cons, IH.
Qed.

Lemma out_of_reach_read st c :
  out_of_reach st c →
  ∃ refs lines, list_heap st !! c = Some refs ∧
                Forall2 (λ p l, line_heap st !! p = Some l) refs lines.
Proof.
  intros [[lines (refs & Hc & Hl)%read_cart_Some] _]. eauto.
Qed.

(** A change of state that leaves a list object and its lines alone, and
    after which no session holds it or one of its lines, keeps it out of
    reach. *)
Lemma out_of_reach_preserved st st' c0 refs0 :
  list_heap st !! c0 = Some refs0 →
  is_Some (read_cart st c0) →
  list_heap st' !! c0 = Some refs0 →
  (∀ p, p ∈ refs0 → line_heap st' !! p = line_heap st !! p) →
  (∀ sid s', ACTIVE_SESSIONS st' !! sid = Some s' →
     cart s' ≠ c0 ∧ ∀ p, p ∈ cart_refs st' (cart s') → p ∉ refs0) →
  out_of_reach st' c0 ∧ read_cart st' c0 = read_cart st c0.
Proof.
  intros Hc0 Hread Hc0' Hlines Hsess.
  assert (Heq : read_cart st' c0 = read_cart st c0)
    by (eapply read_cart_frame; eauto).
  split; [|done]. split; [by rewrite Heq|].
  intros sid s' Hs'. destruct (Hsess _ _ Hs') as [Hne Hdis].
  split; [done|]. intros p Hp. unfold cart_refs at 1.
  rewrite (refs_of_lookup _ _ _ Hc0'). by apply Hdis.
Qed.

Lemma transition_out_of_reach st sid st' c0 :
  transition st sid st' →
  out_of_reach st c0 →
  out_of_reach st' c0 ∧ read_cart st' c0 = read_cart st c0.
Proof.
  intros Ht Hout.
  destruct (out_of_reach_read _ _ Hout) as (refs0 & lines0 & Hc0 & Hl0).
  destruct Hout as [Hread Hap].
  assert (Hfl : fresh (dom (list_heap st)) ≠ c0) by (apply fresh_list_loc; eauto).
  assert (Hfp : ∀ p, p ∈ refs0 → fresh (dom (line_heap st)) ≠ p).
  { intros p Hp. destruct (refs_in_heap _ _ _ _ Hl0 Hp) as (l & Hl & _).
    apply fresh_line_loc. eauto. }
  assert (Hold : ∀ sid2 s, ACTIVE_SESSIONS st !! sid2 = Some s →
            cart s ≠ c0 ∧ ∀ p, p ∈ cart_refs st (cart s) → p ∉ refs0).
  { intros sid2 s Hs. destruct (Hap _ _ Hs) as [Hne Hdis]. split; [done|].
    intros p Hp. specialize (Hdis p Hp). unfold cart_refs in Hdis at 1.
    by rewrite (refs_of_lookup _ _ _ Hc0) in Hdis. }
  apply (out_of_reach_preserved st st' c0 refs0); auto;
  transition_cases Ht; simpl.
  (* the list object is unchanged *)
  - by rewrite lookup_insert_ne.
  - rewrite lookup_insert_ne; [done|]. by apply (Hold _ _ Hs).
  - done.
  - by rewrite lookup_insert_ne.
  - by rewrite lookup_insert_ne.
  (* its lines are unchanged *)
  - done.
  - intros p Hp. rewrite lookup_insert_ne; [done|]. by apply Hfp.
  - intros p' Hp'. rewrite lookup_insert_ne; [done|]. intros ->.
    destruct (Hold _ _ Hs) as [_ Hdis]. apply (Hdis p'); [|done].
    unfold cart_refs. by rewrite (refs_of_lookup _ _ _ Hc).
  - done.
  - done.
  (* the sessions stay away from it *)
  - intros sid' s' Hs'. session_cases Hs'; simpl.
    + split; [done|]. unfold cart_refs. simpl. rewrite refs_of_insert.
      rewrite decide_True by done. intros p Hp. by apply elem_of_nil in Hp.
    + destruct (Hold _ _ Hs') as [Hc' Hdis]. split; [done|].
      unfold cart_refs. simpl. rewrite refs_of_insert.
      destruct (decide _); [|done]. intros p Hp. by apply elem_of_nil in Hp.
  - assert (Happ : ∀ p, p ∈ refs ++ [fresh (dom (line_heap st))] → p ∉ refs0).
    { intros p [Hp | ->%list_elem_of_singleton]%elem_of_app.
      - destruct (Hold _ _ Hs) as [_ Hdis]. apply Hdis.
        unfold cart_refs. by rewrite (refs_of_lookup _ _ _ Hc).
      - intros Hp. by apply (Hfp _ Hp). }
    intros sid' s' Hs'. session_cases Hs'; simpl.
    + destruct (Hold _ _ Hs) as [Hc' _]. split; [done|].
      unfold cart_refs. simpl. rewrite refs_of_insert.
      by rewrite decide_True by done.
    + destruct (Hold _ _ Hs') as [Hc' Hdis]. split; [done|].
      unfold cart_refs. simpl. rewrite refs_of_insert.
      by destruct (decide _).
  - intros sid' s' Hs'. session_cases Hs'; simpl.
    + by apply (Hold _ _ Hs).
    + by apply (Hold _ _ Hs').
  - assert (Hkept : ∀ p, p ∈ kept → p ∉ refs0).
    { intros p Hp. destruct (Hold _ _ Hs) as [_ Hdis]. apply Hdis.
      unfold cart_refs. rewrite (refs_of_lookup _ _ _ Hc).
      by apply (other_lines_subseteq _ _ _ _ Hk). }
    intros sid' s' Hs'. session_cases Hs'; simpl.
    + split; [done|]. unfold cart_refs. simpl. rewrite refs_of_insert.
      by rewrite decide_True by done.
    + destruct (Hold _ _ Hs') as [Hc' Hdis]. split; [done|].
      unfold cart_refs. simpl. rewrite refs_of_insert.
      by destruct (decide _).
  - intros sid' s' Hs'. session_cases Hs'; simpl.
    + split; [done|]. unfold cart_refs. simpl. rewrite refs_of_insert.
      rewrite decide_True by done. intros p Hp. by apply elem_of_nil in Hp.
    + destruct (Hold _ _ Hs') as [Hc' Hdis]. split; [done|].
      unfold cart_refs. simpl. rewrite refs_of_insert.
      destruct (decide _); [|done]. intros p Hp. by apply elem_of_nil in Hp.
Qed.

(** ** The invariants hold in every reachable state *)

Lemma apart_sym st c1 c2 : apart st c1 c2 → apart st c2 c1.
Proof.
  intros [Hne Hdis]. split; [done|]. intros p Hp2 Hp1. by apply (Hdis p).
Qed.

Lemma cart_ids_without iid lines x :
  x ∈ cart_ids (lines_without iid lines) → x ∈ cart_ids lines.
Proof.
  unfold cart_ids, lines_without.
  intros (l & -> & Hl)%list_elem_of_fmap. apply list_elem_of_filter in Hl as [_ Hl].
  by apply list_elem_of_fmap_2.
Qed.

Lemma NoDup_without iid lines :
  NoDup (cart_ids lines) → NoDup (cart_ids (lines_without iid lines)).
Proof.
  induction lines as [|l lines IH]; [done|].
  unfold cart_ids, lines_without in *. simpl.
  intros [Hnin Hnd]%NoDup_cons. rewrite filter_cons.
  destruct (decide (item_id l ≠ iid)); [|auto].
  simpl. apply NoDup_cons. split; [|auto].
  intros Hin. apply Hnin. by apply (cart_ids_without iid).
Qed.

Lemma cart_ids_bumped iid q lines :
  cart_ids (lines_bumped iid q lines) = cart_ids lines.
Proof.
  unfold cart_ids, lines_bumped. rewrite <- list_fmap_compose.
  apply list_fmap_ext. intros i l _. simpl. by destruct (decide _).
Qed.

(** A list object untouched by a change of state reads as before. *)
Lemma frame_read st st' c refs :
  list_heap st !! c = Some refs →
  list_heap st' !! c = Some refs →
  (∀ p, p ∈ refs → line_heap st' !! p = line_heap st !! p) →
  read_cart st' c = read_cart st c ∧ cart_refs st' c = cart_refs st c.
Proof.
  intros Hc Hc' Hp. split; [by eapply read_cart_frame|].
  unfold cart_refs. by rewrite (refs_of_lookup _ _ _ Hc), (refs_of_lookup _ _ _ Hc').
Qed.

(** A change of state made for one session leaves alone every list object
    that is apart from the cart of that session. *)
Lemma transition_bystander st sid st' c2 :
  transition st sid st' →
  is_Some (read_cart st c2) →
  (∀ session, ACTIVE_SESSIONS st !! sid = Some session →
              apart st (cart session) c2) →
  read_cart st' c2 = read_cart st c2 ∧ cart_refs st' c2 = cart_refs st c2.
Proof.
  intros Ht [lines2 (refs2 & Hc2 & Hl2)%read_cart_Some] Hap.
  assert (Hfl : fresh (dom (list_heap st)) ≠ c2) by (apply fresh_list_loc; eauto).
  assert (Hfp : ∀ p, p ∈ refs2 → fresh (dom (line_heap st)) ≠ p).
  { intros p Hp. destruct (refs_in_heap _ _ _ _ Hl2 Hp) as (l & Hl & _).
    apply fresh_line_loc. eauto. }
  apply (frame_read st st' c2 refs2); [done| |];
  transition_cases Ht; simpl;
    try done; try (by rewrite lookup_insert_ne).
  - rewrite lookup_insert_ne; [done|]. by apply (Hap _ Hs).
  - intros p Hp. rewrite lookup_insert_ne; [done|]. by apply Hfp.
  - intros p' Hp'. rewrite lookup_insert_ne; [done|]. intros ->.
    destruct (Hap _ Hs) as [_ Hdis]. apply (Hdis p').
    + unfold cart_refs. by rewrite (refs_of_lookup _ _ _ Hc).
    + unfold cart_refs. by rewrite (refs_of_lookup _ _ _ Hc2).
Qed.

Lemma cart_ids_snoc_NoDup lines (ln : CartLine num) :
  NoDup (cart_ids lines) → item_id ln ∉ cart_ids lines →
  NoDup (cart_ids (lines ++ [ln])).
Proof.
  unfold cart_ids. intros Hnd Hnin. rewrite fmap_app. apply NoDup_app.
  split; [done|]. split.
  - intros x Hx ->%list_elem_of_singleton. done.
  - apply NoDup_singleton.
Qed.

(** What a change of state does to the session it is made for: its cart can
    be read and has one line per item; the cart is the list object it was or
    a new one; its lines are lines the session had or new ones. *)
Lemma transition_actor st sid st' :
  state_inv st →
  transition st sid st' →
  ∃ snew lines',
    ACTIVE_SESSIONS st' = <[sid := snew]> (ACTIVE_SESSIONS st) ∧
    read_cart st' (cart snew) = Some lines' ∧
    NoDup (cart_ids lines') ∧
    (list_heap st !! cart snew = None ∨
     ∃ session, ACTIVE_SESSIONS st !! sid = Some session ∧
                cart snew = cart session) ∧
    (∀ p, p ∈ cart_refs st' (cart snew) →
          line_heap st !! p = None ∨
          ∃ session, ACTIVE_SESSIONS st !! sid = Some session ∧
                     p ∈ cart_refs st (cart session)).
Proof.
  intros Hinv Ht.
  transition_cases Ht.
  - eexists _, []. split; [reflexivity|]. simpl.
    split. { apply read_cart_nil. simpl. by rewrite lookup_insert_eq. }
    split; [constructor|]. split; [left; apply fresh_list_lookup|].
    unfold cart_refs. simpl. rewrite refs_of_insert, decide_True by done.
    intros p Hp. by apply elem_of_nil in Hp.
  - destruct (inv_readable _ Hinv _ _ Hs) as [lines Hr].
    pose proof Hr as (refs' & Hc' & Hl)%read_cart_Some.
    assert (refs' = refs) as -> by congruence.
    exists (touch session now), (lines ++ [ln]). split; [reflexivity|]. simpl.
    split.
    { apply read_cart_Some. eexists. simpl. rewrite lookup_insert_eq.
      split; [done|]. apply Forall2_app.
      - apply Forall2_lookup_insert_fresh; [done | apply fresh_line_lookup].
      - constructor; [by rewrite lookup_insert_eq | constructor]. }
    split.
    { apply cart_ids_snoc_NoDup; [by eapply inv_one_line|].
      by eapply find_line_none. }
    split; [right; eauto|].
    unfold cart_refs. simpl. rewrite refs_of_insert, decide_True by done.
    intros p [Hp | ->%list_elem_of_singleton]%elem_of_app.
    + right. exists session. split; [done|].
      by rewrite (refs_of_lookup _ _ _ Hc).
    + left. apply fresh_line_lookup.
  - destruct (inv_readable _ Hinv _ _ Hs) as [lines Hr].
    pose proof Hr as (refs' & Hc' & Hl)%read_cart_Some.
    assert (refs' = refs) as -> by congruence.
    exists (touch session now), (lines_bumped (item_id ln) q lines).
    split; [reflexivity|]. simpl.
    split.
    { apply read_cart_Some. exists refs. simpl. split; [done|].
      apply bump_in_place; auto. by eapply inv_one_line. }
    split. { rewrite cart_ids_bumped. by eapply inv_one_line. }
    split; [right; eauto|].
    intros p' Hp'. right. exists session. split; [done|]. exact Hp'.
  - destruct (inv_readable _ Hinv _ _ Hs) as [lines Hr].
    destruct (remove_from_cart_spec st sid session lines iid now Hs Hr)
      as (refs' & kept' & Hc' & Hk' & Hrm & Hr').
    assert (refs' = refs) as -> by congruence.
    assert (kept' = kept) as -> by congruence.
    eexists _, (lines_without iid lines). split; [reflexivity|]. simpl.
    split; [exact Hr'|].
    split. { apply NoDup_without. by eapply inv_one_line. }
    split; [left; apply fresh_list_lookup|].
    unfold cart_refs. simpl. rewrite refs_of_insert, decide_True by done.
    intros p Hp. right. exists session. split; [done|].
    rewrite (refs_of_lookup _ _ _ Hc).
    by apply (other_lines_subseteq _ _ _ _ Hk).
  - eexists _, []. split; [reflexivity|]. simpl.
    split. { apply read_cart_nil. simpl. by rewrite lookup_insert_eq. }
    split; [constructor|]. split; [left; apply fresh_list_lookup|].
    unfold cart_refs. simpl. rewrite refs_of_insert, decide_True by done.
    intros p Hp. by apply elem_of_nil in Hp.
Qed.

Lemma readable_refs_in_heap st c p :
  is_Some (read_cart st c) → p ∈ cart_refs st c → is_Some (line_heap st !! p).
Proof.
  intros [lines (refs & Hc & Hl)%read_cart_Some] Hp.
  unfold cart_refs in Hp. rewrite (refs_of_lookup _ _ _ Hc) in Hp.
  destruct (refs_in_heap _ _ _ _ Hl Hp) as (l & Hl' & _). eauto.
Qed.

Lemma readable_in_heap st c :
  is_Some (read_cart st c) → is_Some (list_heap st !! c).
Proof. intros [lines (refs & Hc & _)%read_cart_Some]. eauto. Qed.

(** After a change of state, the session it was made for is apart from every
    other session. *)
Lemma transition_actor_apart st sid st' snew sid2 s2 :
  state_inv st →
  transition st sid st' →
  ACTIVE_SESSIONS st' !! sid = Some snew →
  sid2 ≠ sid →
  ACTIVE_SESSIONS st !! sid2 = Some s2 →
  apart st' (cart snew) (cart s2).
Proof.
  intros Hinv Ht Hsn Hne Hs2.
  destruct (transition_actor _ _ _ Hinv Ht)
    as (snew' & lines' & Hsess & Hr' & Hnd & Hcart & Hrefs).
  rewrite Hsess, lookup_insert_eq in Hsn. injection Hsn as ->.
  pose proof (inv_readable _ Hinv _ _ Hs2) as Hread2.
  destruct (transition_bystander st sid st' (cart s2) Ht Hread2) as [_ Hrefs2].
  { intros session Hs. by apply (inv_sessions_apart _ Hinv sid sid2). }
  split.
  - destruct Hcart as [Hfresh | (session & Hs & ->)].
    + intros Heq. rewrite Heq in Hfresh.
      apply readable_in_heap in Hread2 as [? ?]. congruence.
    + by apply (inv_sessions_apart _ Hinv sid sid2).
  - intros p Hp. rewrite Hrefs2. intros Hp2.
    destruct (Hrefs p Hp) as [Hnone | (session & Hs & Hold)].
    + destruct (readable_refs_in_heap _ _ _ Hread2 Hp2) as [? ?]. congruence.
    + destruct (inv_sessions_apart _ Hinv sid sid2 _ _ (not_eq_sym Hne) Hs Hs2)
        as [_ Hdis]. by apply (Hdis p).
Qed.

Lemma transition_inv st sid st' :
  state_inv st → transition st sid st' → state_inv st'.
Proof.
  intros Hinv Ht.
  destruct (transition_actor _ _ _ Hinv Ht)
    as (snew & lines' & Hsess & Hr' & Hnd & Hcart & Hrefs).
  assert (Hby : ∀ sid2 s2, sid2 ≠ sid → ACTIVE_SESSIONS st !! sid2 = Some s2 →
            read_cart st' (cart s2) = read_cart st (cart s2) ∧
            cart_refs st' (cart s2) = cart_refs st (cart s2)).
  { intros sid2 s2 Hne Hs2. apply (transition_bystander st sid); auto.
    - by eapply inv_readable.
    - intros session Hs. by apply (inv_sessions_apart _ Hinv sid sid2). }
  assert (Hsn : ACTIVE_SESSIONS st' !! sid = Some snew)
    by (by rewrite Hsess, lookup_insert_eq).
  split.
  - intros sid2 s2. rewrite Hsess.
    intros [[<- <-]|[Hne Hs2]]%lookup_insert_Some; [eauto|].
    destruct (Hby sid2 s2) as [-> _]; auto. by eapply inv_readable.
  - intros sid1 sid2 s1 s2 Hne. rewrite Hsess.
    intros [[<- <-]|[Hne1 Hs1]]%lookup_insert_Some
           [[<- <-]|[Hne2 Hs2]]%lookup_insert_Some.
    + done.
    + by apply (transition_actor_apart st sid st' snew sid2 s2).
    + by apply apart_sym, (transition_actor_apart st sid st' snew sid1 s1).
    + destruct (Hby sid1 s1) as [_ Hr1]; auto.
      destruct (Hby sid2 s2) as [_ Hr2]; auto.
      destruct (inv_sessions_apart _ Hinv sid1 sid2 s1 s2 Hne Hs1 Hs2)
        as [Hc Hdis].
      split; [done|]. intros p. rewrite Hr1, Hr2. apply Hdis.
  - intros sid2 s2 lines2. rewrite Hsess.
    intros [[<- <-]|[Hne Hs2]]%lookup_insert_Some.
    + intros Hr2. by assert (lines2 = lines') as -> by congruence.
    + destruct (Hby sid2 s2) as [-> _]; auto. by eapply inv_one_line.
  - intros oid o Ho.
    assert (Hnew : ORDERS st !! oid = Some o ∨
              ∃ session, ACTIVE_SESSIONS st !! sid = Some session ∧
                         items o = cart session ∧
                         cart snew = fresh (dom (list_heap st)) ∧
                         list_heap st' =
                           <[fresh (dom (list_heap st)) := []]> (list_heap st) ∧
                         line_heap st' = line_heap st).
    { transition_cases Ht; simpl in *; auto.
      apply lookup_insert_Some in Ho as [[_ <-]|[_ Ho]]; [|auto].
      right. exists session. rewrite lookup_insert_eq in Hsn.
      injection Hsn as <-. auto. }
    destruct Hnew as [Hold | (session & Hs & Hit & Hcn & Hlh & Hln)].
    { by apply (transition_out_of_reach st sid st'), (inv_orders _ Hinv oid). }
    rewrite Hit.
    pose proof (inv_readable _ Hinv _ _ Hs) as Hread.
    pose proof (readable_in_heap _ _ Hread) as [refs Hc].
    assert (Hframe : ∀ c r, list_heap st !! c = Some r →
              read_cart st' c = read_cart st c ∧ cart_refs st' c = cart_refs st c).
    { intros c r Hcr. apply (frame_read st st' c r); [done| |].
      - rewrite Hlh, lookup_insert_ne; [done|]. apply fresh_list_loc. eauto.
      - intros p _. by rewrite Hln. }
    destruct (Hframe _ _ Hc) as [Hrc Hrefsc].
    split; [by rewrite Hrc|].
    intros sid2 s2. rewrite Hsess.
    intros [[<- <-]|[Hne Hs2]]%lookup_insert_Some.
    + split.
      * rewrite Hcn. apply fresh_list_loc. eauto.
      * intros p. unfold cart_refs at 1. rewrite Hcn, Hlh, refs_of_insert.
        rewrite decide_True by done. intros Hp. by apply elem_of_nil in Hp.
    + pose proof (inv_readable _ Hinv _ _ Hs2) as Hread2.
      pose proof (readable_in_heap _ _ Hread2) as [refs2 Hc2].
      destruct (Hframe _ _ Hc2) as [_ Hrefs2].
      destruct (inv_sessions_apart _ Hinv sid2 sid s2 session (not_eq_sym Hne) Hs2 Hs)
        as [Hcc Hdis].
      split; [done|]. intros p. rewrite Hrefs2, Hrefsc. apply Hdis.
Qed.

Lemma initial_state_inv : state_inv (initial_state (num:=num)).
Proof.
  split; simpl; intros *; rewrite lookup_empty; done.
Qed.

Lemma step_inv st op st' :
  state_inv st → step MENU_ITEMS st op = Some st' → state_inv st'.
Proof.
  intros Hinv [->|[sid Ht]]%step_transition; [done|].
  by eapply transition_inv.
Qed.

Lemma run_inv st ops st' :
  state_inv st → run MENU_ITEMS st ops = Some st' → state_inv st'.
Proof.
  revert st. induction ops as [|op ops IH]; simpl; intros st Hinv.
  - by intros [= <-].
  - destruct (step MENU_ITEMS st op) as [st1|] eqn:Hstep; simpl; [|done].
    apply IH. by eapply step_inv.
Qed.

Lemma reachable_inv st : reachable MENU_ITEMS st → state_inv st.
Proof. intros [ops Hrun]. eapply run_inv; [apply initial_state_inv | done]. Qed.

(** Every tool call answers in a reachable state: no reference of a session
    dangles. *)
Lemma step_total st op : state_inv st → is_Some (step MENU_ITEMS st op).
Proof.
  intros Hinv.
  op_cases op; simpl.
  - eauto.
  - destruct (ACTIVE_SESSIONS st !! sid) as [session|] eqn:Hs.
    + destruct (inv_readable _ Hinv _ _ Hs) as [lines Hr].
      destruct (menu_lookup MENU_ITEMS iid) as [item|] eqn:Hm.
      * destruct (add_to_cart_succeeds st sid session item lines iid q now)
          as (st' & lines' & -> & _); eauto.
      * unfold add_to_cart. rewrite Hs, Hm. eauto.
    + unfold add_to_cart. rewrite Hs. eauto.
  - destruct (ACTIVE_SESSIONS st !! sid) as [session|] eqn:Hs.
    + destruct (inv_readable _ Hinv _ _ Hs) as [lines Hr].
      destruct (remove_from_cart_spec st sid session lines iid now Hs Hr)
        as (refs & kept & _ & _ & -> & _). eauto.
    + unfold remove_from_cart. rewrite Hs. eauto.
  - destruct (ACTIVE_SESSIONS st !! sid) as [session|] eqn:Hs.
    + destruct (inv_readable _ Hinv _ _ Hs) as [lines Hr].
      destruct lines as [|l lines].
      * rewrite (checkout_empty st sid session cu pa oh ot th now); eauto.
      * rewrite (checkout_nonempty st sid session (l :: lines)
                   cu pa oh ot th now); eauto.
    + unfold checkout. rewrite Hs. eauto.
Qed.

Lemma run_total st ops : state_inv st → is_Some (run MENU_ITEMS st ops).
Proof.
  revert st. induction ops as [|op ops IH]; simpl; intros st Hinv; [eauto|].
  destruct (step_total st op Hinv) as [st1 Hstep]. rewrite Hstep. simpl.
  apply IH. by eapply step_inv.
Qed.

(** ** One line per item *)

Lemma lines_bumped_absent iid q lines :
  iid ∉ cart_ids lines → lines_bumped iid q lines = lines.
Proof.
  unfold cart_ids, lines_bumped. intros Hnin.
  rewrite <- (list_fmap_id lines) at 2. apply list_fmap_ext.
  intros i l Hl. simpl. rewrite decide_False; [done|].
  intros <-. apply Hnin. eapply list_elem_of_fmap_2, list_elem_of_lookup_2, Hl.
Qed.

(** C3. In every reachable state a cart holds at most one line per item.
    Adding an item that has a line adds the given amount to the quantity of
    that line and leaves its name and captured price as they are (all other
    lines too); adding an item that has no line appends one line, built from
    the menu.  So adding [q] and then [q2] of an item the cart did not hold
    leaves one line for it, of quantity [q + q2]. *)
Theorem one_line_per_item st sid session :
  reachable MENU_ITEMS st →
  ACTIVE_SESSIONS st !! sid = Some session →
  ∃ lines,
    read_cart st (cart session) = Some lines ∧
    NoDup (cart_ids lines) ∧
    ∀ iid item q now,
      menu_lookup MENU_ITEMS iid = Some item →
      ∃ reply st' session',
        add_to_cart MENU_ITEMS st sid iid q now = Some (Success reply, st') ∧
        ACTIVE_SESSIONS st' !! sid = Some session' ∧
        (iid ∈ cart_ids lines →
         read_cart st' (cart session') = Some (lines_bumped iid q lines)) ∧
        (iid ∉ cart_ids lines →
         read_cart st' (cart session') = Some (lines ++ [new_line item iid q]) ∧
         ∀ q2 now2,
           ∃ reply2 st2 session2,
             add_to_cart MENU_ITEMS st' sid iid q2 now2
               = Some (Success reply2, st2) ∧
             ACTIVE_SESSIONS st2 !! sid = Some session2 ∧
             read_cart st2 (cart session2)
               = Some (lines ++ [new_line item iid (q + q2)])).
Proof.
  intros Hinv%reachable_inv Hs.
  destruct (inv_readable _ Hinv _ _ Hs) as [lines Hr].
  pose proof (inv_one_line _ Hinv _ _ _ Hs Hr) as Hnd.
  exists lines. split; [done|]. split; [done|].
  intros iid item q now Hm.
  pose proof Hr as (refs & Hc & Hl)%read_cart_Some.
  destruct (decide (iid ∈ cart_ids lines)) as [Hin|Hout].
  - destruct (add_to_cart_bump st sid session item refs lines iid q now)
      as (p & ln & Hp & Hln & Hid & Hadd & Hr'); auto.
    eexists _, _, (touch session now). split; [exact Hadd|].
    split; [simpl; by rewrite lookup_insert_eq|].
    split; [done|]. done.
  - destruct (add_to_cart_append st sid session item refs lines iid q now)
      as [Hadd Hr']; auto.
    set (st' := appended_state st sid session refs (new_line item iid q) now) in *.
    assert (Hs' : ACTIVE_SESSIONS st' !! sid = Some (touch session now))
      by (simpl; by rewrite lookup_insert_eq).
    eexists _, st', (touch session now). split; [exact Hadd|].
    split; [exact Hs'|]. split; [done|]. intros _. split; [exact Hr'|].
    intros q2 now2.
    pose proof Hr' as (refs' & Hc' & Hl')%read_cart_Some.
    destruct (add_to_cart_bump st' sid (touch session now) item refs'
                (lines ++ [new_line item iid q]) iid q2 now2)
      as (p & ln & Hp & Hln & Hid & Hadd2 & Hr2); auto.
    { unfold cart_ids. rewrite fmap_app. apply elem_of_app. right.
      apply list_elem_of_here. }
    { by apply cart_ids_snoc_NoDup. }
    eexists _, _, (touch (touch session now) now2). split; [exact Hadd2|].
    split; [simpl; by rewrite lookup_insert_eq|].
    simpl in *. rewrite Hr2. f_equal.
    unfold lines_bumped at 1. rewrite fmap_app.
    fold (lines_bumped iid q2 lines). rewrite lines_bumped_absent by done.
    simpl. by rewrite decide_True by done.
Qed.

(** ** Validation of [add_to_cart] *)



(** ** Orders do not change *)

(** A tool call leaves the order dictionary as it is, except for a checkout
    that stores one order under the id it draws. *)
Lemma step_orders st op st' :
  step MENU_ITEMS st op = Some st' →
  ORDERS st' = ORDERS st ∨
  ∃ sid cu pa oh ot th now order,
    op = OpCheckout sid cu pa oh ot th now ∧
    ORDERS st' = <[make_order_id oh := order]> (ORDERS st).
Proof.
  op_cases op; simpl.
  - intros [= <-]. by left.
  - intros ([reply st1] & Hadd & ->)%fmap_Some. simpl. left.
    destruct (add_to_cart_cases _ _ _ _ _ _ _ Hadd)
      as [(msg & _ & -> & _) |
          (session & item & refs & tot & _ & _ & _ & _ &
           [[_ ->] | (p & ln & _ & _ & _ & ->)])]; done.
  - intros ([reply st1] & Hrm & ->)%fmap_Some. simpl. left.
    destruct (remove_from_cart_cases _ _ _ _ _ _ Hrm)
      as [(msg & _ & -> & _) | (session & refs & kept & tot & _ & _ & _ & _ & ->)];
      done.
  - intros ([reply st1] & Hco & ->)%fmap_Some. simpl.
    destruct (checkout_cases _ _ _ _ _ _ _ _ _ _ Hco)
      as [(msg & _ & -> & _) | (session & order & _ & _ & Hid & _ & ->)].
    + by left.
    + right. exists sid, cu, pa, oh, ot, th, now, order. split; [done|].
      simpl. by rewrite Hid.
Qed.

(** An order of a reachable state stays as it is, and so do its items,
    through every run in which its id is not drawn again. *)
Lemma order_stable st ops oid o :
  state_inv st →
  ORDERS st !! oid = Some o →
  Forall (draws_other_id oid) ops →
  ∃ st2, run MENU_ITEMS st ops = Some st2 ∧
         ORDERS st2 !! oid = Some o ∧
         read_cart st2 (items o) = read_cart st (items o).
Proof.
  revert st. induction ops as [|op ops IH]; intros st Hinv Ho Hids; simpl.
  - by exists st.
  - apply Forall_cons in Hids as [Hid Hids].
    destruct (step_total st op Hinv) as [st1 Hstep]. rewrite Hstep. simpl.
    assert (Ho1 : ORDERS st1 !! oid = Some o).
    { destruct (step_orders _ _ _ Hstep)
        as [-> | (sid & cu & pa & oh & ot & th & now & order & -> & ->)];
        [done|].
      simpl in Hid. by rewrite lookup_insert_ne. }
    assert (Hr1 : read_cart st1 (items o) = read_cart st (items o)).
    { destruct (step_transition _ _ _ Hstep) as [-> | [sid Ht]]; [done|].
      by apply (transition_out_of_reach st sid st1), (inv_orders _ Hinv oid). }
    destruct (IH st1) as (st2 & Hrun & Ho2 & Hr2); auto.
    { by eapply step_inv. }
    exists st2. split; [done|]. split; [done|]. by rewrite Hr2.
Qed.

(** C6, as the code has it.  An order created by a checkout stays the same
    as long as no later checkout draws its id again: after any such run of
    tool calls, on the originating session or on any other,
    [get_order_status] returns the order that the checkout returned, and its
    items read as they did at the checkout, so its lines and its total are
    the same on every call.  (The id is made of eight hexadecimal digits of
    a [uuid4()], and [checkout] stores the order under it without looking
    for an earlier one.) *)
Theorem order_is_immutable st sid cu pa oh ot th now reply st1 ops :
  reachable MENU_ITEMS st →
  checkout st sid cu pa oh ot th now = Some (Success reply, st1) →
  Forall (draws_other_id (order_id (reply_order reply))) ops →
  ∃ lines st2,
    read_cart st1 (items (reply_order reply)) = Some lines ∧
    total (reply_order reply) = cart_total lines ∧
    get_order_status st1 (order_id (reply_order reply))
      = Success (reply_order reply) ∧
    run MENU_ITEMS st1 ops = Some st2 ∧
    get_order_status st2 (order_id (reply_order reply))
      = Success (reply_order reply) ∧
    read_cart st2 (items (reply_order reply)) = Some lines.
Proof.
  intros Hreach Hco Hids.
  pose proof (reachable_inv _ Hreach) as Hinv.
  assert (Hinv1 : state_inv st1).
  { apply (step_inv st (OpCheckout sid cu pa oh ot th now)); [done|].
    simpl. by rewrite Hco. }
  destruct (checkout_cases _ _ _ _ _ _ _ _ _ _ Hco)
    as [(msg & [=] & _) | (session & order & Hs & Hit & Hid & [= ->] & ->)].
  simpl in *.
  destruct (inv_readable _ Hinv _ _ Hs) as [lines Hr].
  assert (Hlines : lines ≠ []).
  { intros ->. rewrite (checkout_empty st sid session) in Hco; done. }
  rewrite (checkout_nonempty st sid session lines) in Hco by done.
  injection Hco as Horder.
  destruct (checked_out_reads st sid session order now lines Hr) as [Hitems _].
  assert (Ho1 : ORDERS (checked_out_state st sid session order now)
                  !! order_id order = Some order)
    by (simpl; by rewrite lookup_insert_eq).
  destruct (order_stable _ ops _ _ Hinv1 Ho1 Hids) as (st2 & Hrun & Ho2 & Hr2).
  exists lines, st2. rewrite Hit in *.
  split; [exact Hitems|]. split; [by rewrite <- Horder|].
  split; [unfold get_order_status; by rewrite Ho1|].
  split; [done|]. split; [unfold get_order_status; by rewrite Ho2|].
  by rewrite Hr2.
Qed.

(** ** Activity timestamps *)

(** The session entry after a tool call: untouched, or stamped with the
    reading of the call. *)
Lemma step_last_active st op st' sid session :
  step MENU_ITEMS st op = Some st' →
  ACTIVE_SESSIONS st !! sid = Some session →
  ∃ session', ACTIVE_SESSIONS st' !! sid = Some session' ∧
              (last_active session' = last_active session ∨
               last_active session' = op_now op).
Proof.
  intros Hstep Hs.
  assert (Hins : ∀ (m : gmap string Session) sid0 snew,
            last_active snew = op_now op →
            m !! sid = Some session →
            ∃ session', <[sid0 := snew]> m !! sid = Some session' ∧
                        (last_active session' = last_active session ∨
                         last_active session' = op_now op)).
  { intros m sid0 snew Hnow Hm. destruct (decide (sid0 = sid)) as [->|Hne].
    - exists snew. rewrite lookup_insert_eq. auto.
    - exists session. rewrite lookup_insert_ne by done. auto. }
  destruct op as [sid0 now|sid0 iid q now|sid0 iid now|sid0 cu pa oh ot th now];
    simpl in Hstep.
  - injection Hstep as <-. simpl. by apply Hins.
  - apply fmap_Some in Hstep as ([reply st1] & Hadd & ->). simpl.
    destruct (add_to_cart_cases _ _ _ _ _ _ _ Hadd)
      as [(msg & _ & -> & _) |
          (s0 & item & refs & tot & _ & _ & _ & _ &
           [[_ ->] | (p & ln & _ & _ & _ & ->)])]; simpl; eauto.
  - apply fmap_Some in Hstep as ([reply st1] & Hrm & ->). simpl.
    destruct (remove_from_cart_cases _ _ _ _ _ _ Hrm)
      as [(msg & _ & -> & _) | (s0 & refs & kept & tot & _ & _ & _ & _ & ->)];
      simpl; eauto.
  - apply fmap_Some in Hstep as ([reply st1] & Hco & ->). simpl.
    destruct (checkout_cases _ _ _ _ _ _ _ _ _ _ Hco)
      as [(msg & _ & -> & _) | (s0 & order & _ & _ & _ & _ & ->)];
      simpl; eauto.
Qed.

Lemma run_last_active ops : ∀ st st' sid session t,
  run MENU_ITEMS st ops = Some st' →
  ACTIVE_SESSIONS st !! sid = Some session →
  (last_active session ≤ t)%Z →
  clock_from t ops →
  ∃ session', ACTIVE_SESSIONS st' !! sid = Some session' ∧
              (last_active session ≤ last_active session')%Z.
Proof.
  induction ops as [|op ops IH]; simpl; intros st st' sid session t Hrun Hs Ht Hclk.
  - injection Hrun as <-. exists session. split; [done | lia].
  - destruct (step MENU_ITEMS st op) as [st1|] eqn:Hstep; simpl in Hrun; [|done].
    destruct Hclk as [Hle Hclk].
    destruct (step_last_active _ _ _ _ _ Hstep Hs) as (s1 & Hs1 & Hla).
    destruct (IH st1 st' sid s1 (op_now op) Hrun Hs1) as (s' & Hs' & Hle');
      [destruct Hla as [-> | ->]; lia | done |].
    exists s'. split; [done|]. destruct Hla as [Heq | Heq]; rewrite Heq in *; lia.
Qed.

(** C8, as the code has it.  For an existing session, every [add_to_cart]
    of an item on the menu, every [remove_from_cart] and every checkout of a
    cart that is not empty set [last_active] to the current time; a checkout
    refused because the cart is empty leaves the state, so [last_active], as
    it is; and [last_active] never decreases through a run whose clock
    readings do not decrease. *)
Theorem last_active_follows_successful_calls st sid session lines :
  ACTIVE_SESSIONS st !! sid = Some session →
  read_cart st (cart session) = Some lines →
  (∀ iid item q now, menu_lookup MENU_ITEMS iid = Some item →
     ∃ reply st' session',
       add_to_cart MENU_ITEMS st sid iid q now = Some (Success reply, st') ∧
       ACTIVE_SESSIONS st' !! sid = Some session' ∧
       last_active session' = now) ∧
  (∀ iid now,
     ∃ reply st' session',
       remove_from_cart st sid iid now = Some (Success reply, st') ∧
       ACTIVE_SESSIONS st' !! sid = Some session' ∧
       last_active session' = now) ∧
  (∀ cu pa oh ot th now, lines ≠ [] →
     ∃ reply st' session',
       checkout st sid cu pa oh ot th now = Some (Success reply, st') ∧
       ACTIVE_SESSIONS st' !! sid = Some session' ∧
       last_active session' = now) ∧
  (∀ cu pa oh ot th now, lines = [] →
     checkout st sid cu pa oh ot th now =
       Some (Failure "Cannot checkout with empty cart", st)) ∧
  (∀ ops st', run MENU_ITEMS st ops = Some st' →
     clock_from (last_active session) ops →
     ∃ session', ACTIVE_SESSIONS st' !! sid = Some session' ∧
                 (last_active session ≤ last_active session')%Z).
Proof.
  intros Hs Hr. split; [|split; [|split; [|split]]].
  - intros iid item q now Hm.
    destruct (add_to_cart_succeeds st sid session item lines iid q now)
      as (st' & lines' & Hadd & Hs' & _); auto.
    by eexists _, st', (touch session now).
  - intros iid now.
    destruct (remove_from_cart_spec st sid session lines iid now Hs Hr)
      as (refs & kept & _ & _ & Hrm & _).
    eexists _, _, _. split; [exact Hrm|].
    split; [simpl; by rewrite lookup_insert_eq | done].
  - intros cu pa oh ot th now Hne.
    eexists _, _, _.
    split; [by apply (checkout_nonempty st sid session lines)|].
    split; [simpl; by rewrite lookup_insert_eq | done].
  - intros cu pa oh ot th now ->. by apply (checkout_empty st sid session).
  - intros ops st' Hrun Hclk.
    apply (run_last_active ops st st' sid session (last_active session)); auto.
    lia.
Qed.

(** ** Dietary preferences *)

(** C9, as the code has it.  A dietary preference whose lower-case form
    ([dietary_preference.lower()]) is none of "vegetarian", "vegan" and
    "gluten_free" filters nothing: the query returns what the same query
    without a dietary preference returns, and no error. *)
Theorem unknown_preference_ignored dp max_price exclude_allergens category :
  lower dp ∉ ["vegetarian"; "vegan"; "gluten_free"] →
  find_items_by_criteria MENU_ITEMS (Some dp) max_price exclude_allergens category
  = find_items_by_criteria MENU_ITEMS None max_price exclude_allergens category.
Proof.
  intros Hnot. unfold find_items_by_criteria. simpl.
  destruct (String.eqb dp EmptyString); [done|].
  destruct (String.eqb_spec (lower dp) "vegetarian") as [Heq|_].
  { exfalso. apply Hnot. rewrite Heq. apply list_elem_of_here. }
  destruct (String.eqb_spec (lower dp) "vegan") as [Heq|_].
  { exfalso. apply Hnot. rewrite Heq. apply list_elem_of_further, list_elem_of_here. }
  destruct (String.eqb_spec (lower dp) "gluten_free") as [Heq|_]; [|done].
  exfalso. apply Hnot. rewrite Heq.
  do 2 apply list_elem_of_further. apply list_elem_of_here.
Qed.

(** * Further properties of the tools *)

(** ** Filters of lists *)

Lemma filter_sublist_of {A} (f : A → bool) (l : list A) :
  List.filter f l `sublist_of` l.
Proof.
  induction l as [|x l IH]; simpl; [constructor|].
  destruct (f x); [by apply sublist_skip | by apply sublist_cons].
Qed.

Lemma filter_sublist_filter {A} (f g : A → bool) (l : list A) :
  (∀ x, f x = true → g x = true) →
  List.filter f l `sublist_of` List.filter g l.
Proof.
  intros Hfg. induction l as [|x l IH]; simpl; [constructor|].
  destruct (f x) eqn:Hf.
  - rewrite (Hfg x Hf). by apply sublist_skip.
  - destruct (g x); [by apply sublist_cons | done].
Qed.

(** ** Menu categories *)

(** X1. [get_menu_categories] lists every category of the menu, and nothing
    else, once each and in increasing order. *)
Theorem menu_categories_sorted_distinct :
  Sorted String.le (get_menu_categories MENU_ITEMS) ∧
  NoDup (get_menu_categories MENU_ITEMS) ∧
  ∀ c, c ∈ get_menu_categories MENU_ITEMS ↔
       ∃ item, item ∈ MENU_ITEMS ∧ m_category item = c.
Proof.
  unfold get_menu_categories. split; [apply Sorted_merge_sort; apply _|].
  split.
  - rewrite merge_sort_Permutation. apply NoDup_remove_dups.
  - intros c. rewrite merge_sort_Permutation, elem_of_remove_dups, list_elem_of_fmap.
    split; intros (item & Hc & Hin); exists item; auto.
Qed.

(** X3. A category is listed by [get_menu_categories] exactly when
    [list_items_by_category] finds an item for it; the items found are the
    items of the menu with that very category, in menu order. *)
Theorem listed_categories_have_items category :
  (category ∈ get_menu_categories MENU_ITEMS ↔
   list_items_by_category MENU_ITEMS category ≠ []) ∧
  list_items_by_category MENU_ITEMS category `sublist_of` MENU_ITEMS ∧
  ∀ item, item ∈ list_items_by_category MENU_ITEMS category ↔
          item ∈ MENU_ITEMS ∧ m_category item = category.
Proof.
  assert (Hmem : ∀ item, item ∈ list_items_by_category MENU_ITEMS category ↔
                         item ∈ MENU_ITEMS ∧ m_category item = category).
  { intros item. unfold list_items_by_category.
    rewrite !list_elem_of_In, filter_In, String.eqb_eq. done. }
  split; [|split; [|exact Hmem]].
  - unfold get_menu_categories.
    rewrite merge_sort_Permutation, elem_of_remove_dups, list_elem_of_fmap.
    split.
    + intros (item & -> & Hin) Hnil.
      assert (Hi : item ∈ list_items_by_category MENU_ITEMS (m_category item))
        by (by apply Hmem).
      rewrite Hnil in Hi. by apply elem_of_nil in Hi.
    + destruct (list_items_by_category MENU_ITEMS category) as [|item l] eqn:Hl;
        [done|]. intros _.
      destruct (proj1 (Hmem item) (list_elem_of_here _ _)) as [Hin Hc].
      by exists item.
  - apply filter_sublist_of.
Qed.

(** X2. The list of categories does not depend on the order of the menu. *)
Theorem menu_categories_order_free (menu' : list (MenuItem num)) :
  MENU_ITEMS ≡ₚ menu' →
  get_menu_categories MENU_ITEMS = get_menu_categories menu'.
Proof.
  intros Hperm. unfold get_menu_categories.
  apply (Sorted_unique String.le); try apply Sorted_merge_sort; try apply _.
  rewrite !merge_sort_Permutation.
  apply NoDup_Permutation; try apply NoDup_remove_dups.
  intros c. rewrite !elem_of_remove_dups. by rewrite Hperm.
Qed.

(** X4. The items of a category, matched exactly, are among the items
    [find_items_by_criteria] returns for that category, which it matches
    without regard to letter case. *)
Theorem category_items_among_found category :
  list_items_by_category MENU_ITEMS category
    `sublist_of` find_items_by_criteria MENU_ITEMS None None None (Some category).
Proof.
  unfold list_items_by_category, find_items_by_criteria. simpl.
  destruct (String.eqb category EmptyString).
  - apply filter_sublist_of.
  - apply filter_sublist_filter. intros item ->%String.eqb_eq.
    apply String.eqb_refl.
Qed.

(** ** Item details *)

Lemma identifies_spec x (item : MenuItem num) :
  identifies x item = true ↔
  m_id item = x ∨ lower (m_name item) = lower x.
Proof.
  unfold identifies. rewrite orb_true_iff, !String.eqb_eq. done.
Qed.

(** X5. [get_item_details] returns the first item of the menu whose id is
    the identifier or whose name is the identifier up to letter case; it
    answers with "Item '...' not found" exactly when the menu has no such
    item. *)
Theorem item_details_first_match x :
  (∀ item, get_item_details MENU_ITEMS x = Success item ↔
     ∃ before after,
       MENU_ITEMS = before ++ item :: after ∧
       (m_id item = x ∨ lower (m_name item) = lower x) ∧
       ∀ other, other ∈ before →
                m_id other ≠ x ∧ lower (m_name other) ≠ lower x) ∧
  (∀ msg, get_item_details MENU_ITEMS x = Failure msg ↔
     msg = "Item '" +:+ x +:+ "' not found" ∧
     ∀ item, item ∈ MENU_ITEMS →
             m_id item ≠ x ∧ lower (m_name item) ≠ lower x).
Proof.
  assert (Hno : ∀ item : MenuItem num, identifies x item = false ↔
                  m_id item ≠ x ∧ lower (m_name item) ≠ lower x).
  { intros item. rewrite <- not_true_iff_false, identifies_spec. tauto. }
  unfold get_item_details.
  induction MENU_ITEMS as [|i items [IHs IHf]]; simpl.
  - split.
    + intros item. split; [done|].
      intros (before & after & Heq & _). by destruct before.
    + intros msg. split.
      * intros [= <-]. split; [done|]. intros item Hin. by apply elem_of_nil in Hin.
      * by intros [-> _].
  - destruct (identifies x i) eqn:Hi.
    + split.
      * intros item. split.
        -- intros [= <-]. exists [], items. split; [done|].
           split; [by apply identifies_spec|].
           intros other Hin. by apply elem_of_nil in Hin.
        -- intros (before & after & Heq & _ & Hbefore).
           destruct before as [|b before]; simpl in Heq.
           ++ by injection Heq as <- _.
           ++ injection Heq as <- _.
              destruct (Hbefore i) as [H1 H2]; [apply list_elem_of_here|].
              apply identifies_spec in Hi. tauto.
      * intros msg. split; [done|]. intros [_ Hall].
        destruct (Hall i) as [H1 H2]; [apply list_elem_of_here|].
        apply identifies_spec in Hi. tauto.
    + apply Hno in Hi. split.
      * intros item. rewrite IHs. split.
        -- intros (before & after & -> & Hm & Hbefore).
           exists (i :: before), after. split; [done|]. split; [done|].
           intros other [->|Hin]%elem_of_cons; auto.
        -- intros (before & after & Heq & Hm & Hbefore).
           destruct before as [|b before]; simpl in Heq.
           ++ injection Heq as -> _. tauto.
           ++ injection Heq as -> ->. exists before, after.
              split; [done|]. split; [done|]. intros other Hin.
              apply Hbefore. by apply list_elem_of_further.
      * intros msg. rewrite IHf. split.
        -- intros [-> Hall]. split; [done|].
           intros item [->|Hin]%elem_of_cons; auto.
        -- intros [-> Hall]. split; [done|]. intros item Hin.
           apply Hall. by apply list_elem_of_further.
Qed.

(** X6. An identifier [get_item_details] cannot resolve cannot be added to a
    cart: [add_to_cart] refuses it with the same message and changes
    nothing; and every identifier [add_to_cart] accepts is resolved by
    [get_item_details]. *)
Theorem unresolved_item_not_added st sid session x q now :
  ACTIVE_SESSIONS st !! sid = Some session →
  (∀ msg, get_item_details MENU_ITEMS x = Failure msg →
          add_to_cart MENU_ITEMS st sid x q now = Some (Failure msg, st)) ∧
  (∀ reply st', add_to_cart MENU_ITEMS st sid x q now = Some (Success reply, st') →
                ∃ item, get_item_details MENU_ITEMS x = Success item).
Proof.
  intros Hs.
  assert (Hfind : ∀ item, menu_lookup MENU_ITEMS x = Some item →
                    ∃ item', List.find (identifies x) MENU_ITEMS = Some item').
  { intros item Hm. apply find_some in Hm as [Hin Hid].
    destruct (List.find (identifies x) MENU_ITEMS) as [item'|] eqn:Hf; [eauto|].
    apply (find_none _ _ Hf) in Hin. unfold identifies in Hin.
    by rewrite Hid in Hin. }
  split.
  - intros msg. unfold get_item_details.
    destruct (List.find (identifies x) MENU_ITEMS) as [item'|] eqn:Hf; [done|].
    intros [= <-]. unfold add_to_cart. rewrite Hs.
    destruct (menu_lookup MENU_ITEMS x) as [item|] eqn:Hm; [|done].
    destruct (Hfind item eq_refl) as [item' Hf']. congruence.
  - intros reply st' Hadd.
    destruct (add_to_cart_cases _ _ _ _ _ _ _ Hadd)
      as [(msg & [=] & _) | (s0 & item & refs & tot & _ & Hm & _)].
    destruct (Hfind item Hm) as [item' Hf]. exists item'.
    unfold get_item_details. by rewrite Hf.
Qed.

(** ** Queries on the menu *)

Lemma allergen_free_spec allergen (item : MenuItem num) :
  allergen_free allergen item = true ↔
  lower allergen ∉ map lower (m_allergens item).
Proof.
  unfold allergen_free. rewrite negb_true_iff, <- not_true_iff_false.
  rewrite existsb_exists, list_elem_of_In. split.
  - intros Hno Hin. apply Hno. exists (lower allergen).
    split; [done | apply String.eqb_refl].
  - intros Hno (a & Hin & Heq%String.eqb_eq). by subst a.
Qed.

Lemma elem_of_filter_bool {A} (f : A → bool) (l : list A) x :
  x ∈ List.filter f l ↔ x ∈ l ∧ f x = true.
Proof. by rewrite !list_elem_of_In, filter_In. Qed.

Lemma elem_of_allergen_filters allergens (l : list (MenuItem num)) item :
  item ∈ fold_left (λ acc allergen, List.filter (allergen_free allergen) acc)
                   allergens l ↔
  item ∈ l ∧ ∀ a, a ∈ allergens → lower a ∉ map lower (m_allergens item).
Proof.
  revert l. induction allergens as [|a allergens IH]; intros l; simpl.
  - split; [intros Hin; split; [done|] | by intros [Hin _]].
    intros a Ha. by apply elem_of_nil in Ha.
  - rewrite IH, elem_of_filter_bool, allergen_free_spec. split.
    + intros [[Hin Ha] Hall]. split; [done|].
      intros a' [->|Ha']%elem_of_cons; auto.
    + intros [Hin Hall]. split; [split; [done|] |].
      * apply Hall, list_elem_of_here.
      * intros a' Ha'. by apply Hall, list_elem_of_further.
Qed.

Lemma allergen_filters_sublist allergens (l : list (MenuItem num)) :
  fold_left (λ acc allergen, List.filter (allergen_free allergen) acc) allergens l
    `sublist_of` l.
Proof.
  revert l. induction allergens as [|a allergens IH]; intros l; simpl; [done|].
  etrans; [apply IH | apply filter_sublist_of].
Qed.

(** X7. [find_items_by_criteria] returns, in menu order, exactly the items
    of the menu that meet every criterion given: the flag of a recognized
    dietary preference, a price within the limit, none of the excluded
    allergens (compared in lower case), and the category (compared in lower
    case; an empty category is no criterion). *)
Theorem found_items_meet_criteria dp mp ea cat :
  find_items_by_criteria MENU_ITEMS dp mp ea cat `sublist_of` MENU_ITEMS ∧
  ∀ item,
    item ∈ find_items_by_criteria MENU_ITEMS dp mp ea cat ↔
    item ∈ MENU_ITEMS ∧
    (∀ p, dp = Some p →
       (lower p = "vegetarian" → m_is_vegetarian item = true) ∧
       (lower p = "vegan" → m_is_vegan item = true) ∧
       (lower p = "gluten_free" → m_is_gluten_free item = true)) ∧
    (∀ limit, mp = Some limit → num_le (m_price item) limit = true) ∧
    (∀ allergens a, ea = Some allergens → a ∈ allergens →
                    lower a ∉ map lower (m_allergens item)) ∧
    (∀ c, cat = Some c → c ≠ EmptyString →
          lower (m_category item) = lower c).
Proof.
  unfold find_items_by_criteria.
  set (s1 := match str_truthy dp with
             | Some p =>
                 if String.eqb (lower p) "vegetarian"
                 then List.filter m_is_vegetarian MENU_ITEMS
                 else if String.eqb (lower p) "vegan"
                      then List.filter m_is_vegan MENU_ITEMS
                      else if String.eqb (lower p) "gluten_free"
                           then List.filter m_is_gluten_free MENU_ITEMS
                           else MENU_ITEMS
             | None => MENU_ITEMS
             end).
  set (s2 := match mp with
             | Some limit => List.filter (λ i, num_le (m_price i) limit) s1
             | None => s1
             end).
  set (s3 := match ea with
             | Some allergens =>
                 fold_left (λ acc allergen, List.filter (allergen_free allergen) acc)
                           allergens s2
             | None => s2
             end).
  assert (H1 : s1 `sublist_of` MENU_ITEMS ∧ ∀ item, item ∈ s1 ↔
            item ∈ MENU_ITEMS ∧
            ∀ p, dp = Some p →
              (lower p = "vegetarian" → m_is_vegetarian item = true) ∧
              (lower p = "vegan" → m_is_vegan item = true) ∧
              (lower p = "gluten_free" → m_is_gluten_free item = true)).
  { subst s1. destruct dp as [p|]; simpl.
    2:{ split; [done|]. intros item. split; [by intros Hin | by intros [Hin _]]. }
    destruct (String.eqb_spec p EmptyString) as [->|Hp].
    { split; [done|]. intros item. split; [|by intros [Hin _]].
      intros Hin. split; [done|]. intros p [= <-].
      rewrite (proj2 (lower_eq_empty EmptyString) eq_refl). done. }
    destruct (String.eqb_spec (lower p) "vegetarian") as [Hv|Hv].
    { split; [apply filter_sublist_of|]. intros item.
      rewrite elem_of_filter_bool. split.
      - intros [Hin Hf]. split; [done|]. intros p' [= <-].
        rewrite Hv. repeat split; [done | discriminate | discriminate].
      - intros [Hin Hall]. split; [done|]. by apply (Hall p). }
    destruct (String.eqb_spec (lower p) "vegan") as [Hg|Hg].
    { split; [apply filter_sublist_of|]. intros item.
      rewrite elem_of_filter_bool. split.
      - intros [Hin Hf]. split; [done|]. intros p' [= <-].
        rewrite Hg. repeat split; [discriminate | done | discriminate].
      - intros [Hin Hall]. split; [done|]. by apply (Hall p). }
    destruct (String.eqb_spec (lower p) "gluten_free") as [Hf|Hf].
    { split; [apply filter_sublist_of|]. intros item.
      rewrite elem_of_filter_bool. split.
      - intros [Hin Hfl]. split; [done|]. intros p' [= <-].
        rewrite Hf. repeat split; [discriminate | discriminate | done].
      - intros [Hin Hall]. split; [done|]. by apply (Hall p). }
    split; [done|]. intros item. split; [|by intros [Hin _]].
    intros Hin. split; [done|]. intros p' [= <-]. repeat split; done. }
  destruct H1 as [Hsub1 Hmem1].
  assert (H2 : s2 `sublist_of` s1 ∧ ∀ item, item ∈ s2 ↔
            item ∈ s1 ∧ ∀ limit, mp = Some limit →
                                 num_le (m_price item) limit = true).
  { subst s2. destruct mp as [limit|].
    - split; [apply filter_sublist_of|]. intros item.
      rewrite elem_of_filter_bool. split.
      + intros [Hin Hle]. split; [done|]. by intros limit' [= <-].
      + intros [Hin Hall]. split; [done|]. by apply Hall.
    - split; [done|]. intros item. split; [by intros Hin | by intros [Hin _]]. }
  destruct H2 as [Hsub2 Hmem2].
  assert (H3 : s3 `sublist_of` s2 ∧ ∀ item, item ∈ s3 ↔
            item ∈ s2 ∧ ∀ allergens a, ea = Some allergens → a ∈ allergens →
                          lower a ∉ map lower (m_allergens item)).
  { subst s3. destruct ea as [allergens|].
    - split; [apply allergen_filters_sublist|]. intros item.
      rewrite elem_of_allergen_filters. split.
      + intros [Hin Hall]. split; [done|]. intros l a [= <-]. apply Hall.
      + intros [Hin Hall]. split; [done|]. intros a. by apply Hall.
    - split; [done|]. intros item. split; [by intros Hin | by intros [Hin _]]. }
  destruct H3 as [Hsub3 Hmem3].
  assert (H4 : ∀ item, item ∈ s3 ↔
            item ∈ MENU_ITEMS ∧
            (∀ p, dp = Some p →
               (lower p = "vegetarian" → m_is_vegetarian item = true) ∧
               (lower p = "vegan" → m_is_vegan item = true) ∧
               (lower p = "gluten_free" → m_is_gluten_free item = true)) ∧
            (∀ limit, mp = Some limit → num_le (m_price item) limit = true) ∧
            (∀ allergens a, ea = Some allergens → a ∈ allergens →
                            lower a ∉ map lower (m_allergens item))).
  { intros item. rewrite Hmem3, Hmem2, Hmem1. tauto. }
  clearbody s1 s2 s3.
  destruct cat as [c|]; simpl.
  2:{ split; [by etrans; [|etrans]|]. intros item. rewrite H4.
      split; [|tauto]. intros (? & ? & ? & ?).
      do 4 (split; [done|]). intros c [=]. }
  destruct (String.eqb_spec c EmptyString) as [->|Hc].
  { split; [by etrans; [|etrans]|]. intros item. rewrite H4.
    split; [|tauto]. intros (? & ? & ? & ?).
    do 4 (split; [done|]). by intros c [= <-]. }
  split.
  - etrans; [apply filter_sublist_of|]. by etrans; [|etrans].
  - intros item. rewrite elem_of_filter_bool, H4, String.eqb_eq. split.
    + intros [(? & ? & ? & ?) Hcat]. do 4 (split; [done|]).
      by intros c' [= <-].
    + intros (? & ? & ? & ? & Hcat). split; [done|]. by apply Hcat.
Qed.

Lemma lower_empty s : lower s = EmptyString ↔ s = EmptyString.
Proof. apply lower_eq_empty. Qed.

Lemma str_truthy_lower s s' :
  lower s = lower s' →
  lower <$> str_truthy (Some s) = lower <$> str_truthy (Some s').
Proof.
  intros Heq. simpl.
  destruct (String.eqb_spec s EmptyString) as [->|Hs];
    destruct (String.eqb_spec s' EmptyString) as [->|Hs']; simpl; try done.
  - rewrite (proj2 (lower_empty EmptyString) eq_refl) in Heq.
    symmetry in Heq. by apply (proj1 (lower_empty _)) in Heq.
  - rewrite (proj2 (lower_empty EmptyString) eq_refl) in Heq.
    by apply (proj1 (lower_empty _)) in Heq.
  - by rewrite Heq.
Qed.

Lemma allergen_free_lower a a' (item : MenuItem num) :
  lower a = lower a' → allergen_free a item = allergen_free a' item.
Proof. unfold allergen_free. by intros ->. Qed.

(** X8. Letter case never matters to [find_items_by_criteria]: two queries
    whose dietary preferences, excluded allergens and categories agree in
    lower case return the same items. *)
Theorem find_items_ignores_case dp dp' mp ea ea' cat cat' :
  lower dp = lower dp' →
  map lower ea = map lower ea' →
  lower cat = lower cat' →
  find_items_by_criteria MENU_ITEMS (Some dp) mp (Some ea) (Some cat)
  = find_items_by_criteria MENU_ITEMS (Some dp') mp (Some ea') (Some cat').
Proof.
  intros Hdp Hea Hcat. unfold find_items_by_criteria.
  pose proof (str_truthy_lower dp dp' Hdp) as Hd.
  pose proof (str_truthy_lower cat cat' Hcat) as Hc.
  assert (Hfold : ∀ l : list (MenuItem num),
    fold_left (λ acc allergen, List.filter (allergen_free allergen) acc) ea l
    = fold_left (λ acc allergen, List.filter (allergen_free allergen) acc) ea' l).
  { clear Hd Hc. revert ea' Hea.
    induction ea as [|a ea IH]; intros [|a' ea'] Hea l; simpl in *; try done.
    injection Hea as Ha Hea. rewrite (IH ea' Hea).
    f_equal. apply filter_ext. intros item. by apply allergen_free_lower. }
  destruct (str_truthy (Some dp)) as [p|], (str_truthy (Some dp')) as [p'|];
    simpl in Hd; try done;
  destruct (str_truthy (Some cat)) as [c|], (str_truthy (Some cat')) as [c'|];
    simpl in Hc; try done;
  repeat match goal with Hx : Some _ = Some _ |- _ => injection Hx as Hx end;
  rewrite ?Hd, ?Hc, Hfold; reflexivity.
Qed.

(** ** Sessions *)

(** X9. A session id that is not in the session dictionary is refused by
    every tool that takes one, with "Invalid session ID" and no change of
    state, whatever the other arguments. *)
Theorem unknown_session_rejected st sid :
  ACTIVE_SESSIONS st !! sid = None →
  get_cart st sid = Some (Failure "Invalid session ID") ∧
  (∀ iid q now,
     add_to_cart MENU_ITEMS st sid iid q now
       = Some (Failure "Invalid session ID", st)) ∧
  (∀ iid now,
     remove_from_cart st sid iid now = Some (Failure "Invalid session ID", st)) ∧
  (∀ cu pa oh ot th now,
     checkout st sid cu pa oh ot th now
       = Some (Failure "Invalid session ID", st)).
Proof.
  intros Hs. unfold get_cart, add_to_cart, remove_from_cart, checkout.
  rewrite Hs. auto.
Qed.

(** X10. [create_cart] gives the session id an empty cart, held in a new
    list object, with both timestamps at the current time, whatever the
    session dictionary held for that id; it leaves the orders alone, and a
    checkout of the new session is refused. *)
Theorem create_cart_starts_empty st sid now :
  ∃ session,
    (create_cart st sid now).1 = (sid, []) ∧
    ACTIVE_SESSIONS (create_cart st sid now).2 !! sid = Some session ∧
    created_at session = now ∧
    last_active session = now ∧
    list_heap st !! cart session = None ∧
    get_cart (create_cart st sid now).2 sid
      = Some (Success {| reply_cart := cart session; reply_total := num_zero |}) ∧
    read_cart (create_cart st sid now).2 (cart session) = Some [] ∧
    ORDERS (create_cart st sid now).2 = ORDERS st ∧
    ∀ cu pa oh ot th now',
      checkout (create_cart st sid now).2 sid cu pa oh ot th now'
        = Some (Failure "Cannot checkout with empty cart",
                (create_cart st sid now).2).
Proof.
  set (session := {| cart := fresh (dom (list_heap st));
                     created_at := now; last_active := now |}).
  assert (Hs : ACTIVE_SESSIONS (create_cart st sid now).2 !! sid = Some session)
    by (simpl; by rewrite lookup_insert_eq).
  assert (Hr : read_cart (create_cart st sid now).2 (cart session) = Some []).
  { apply read_cart_nil. simpl. by rewrite lookup_insert_eq. }
  exists session. split; [done|]. split; [exact Hs|]. do 2 (split; [done|]).
  split; [apply fresh_list_lookup|].
  split. { unfold get_cart. rewrite Hs. simpl in Hr |- *. rewrite Hr. simpl.
           by rewrite cart_total_nil. }
  split; [exact Hr|]. split; [done|].
  intros cu pa oh ot th now'. by apply (checkout_empty _ sid session).
Qed.

Lemma step_transition_session st op st' :
  step MENU_ITEMS st op = Some st' →
  st' = st ∨ transition st (op_session op) st'.
Proof.
  op_cases op; simpl.
  - intros [= <-]. right. constructor.
  - intros ([reply st1] & Hadd & ->)%fmap_Some. simpl.
    destruct (add_to_cart_cases _ _ _ _ _ _ _ Hadd)
      as [(msg & _ & -> & _) |
          (session & item & refs & tot & Hs & Hm & Hc & _ &
           [[Hf ->] | (p & ln & Hin & Hln & Hid & ->)])].
    + by left.
    + right. by eapply t_append.
    + right. by eapply t_bump.
  - intros ([reply st1] & Hrm & ->)%fmap_Some. simpl.
    destruct (remove_from_cart_cases _ _ _ _ _ _ Hrm)
      as [(msg & _ & -> & _) | (session & refs & kept & tot & Hs & Hc & Hk & _ & ->)].
    + by left.
    + right. by eapply t_remove.
  - intros ([reply st1] & Hco & ->)%fmap_Some. simpl.
    destruct (checkout_cases _ _ _ _ _ _ _ _ _ _ Hco)
      as [(msg & _ & -> & _) | (session & order & Hs & Hit & _ & _ & ->)].
    + by left.
    + right. by eapply t_checkout.
Qed.

(** X11. Sessions are isolated: a tool call made for one session leaves the
    entry of every other session, its timestamps included, and the lines and
    total of its cart as they are. *)
Theorem sessions_are_isolated st op st' sid2 s2 :
  reachable MENU_ITEMS st →
  step MENU_ITEMS st op = Some st' →
  op_session op ≠ sid2 →
  ACTIVE_SESSIONS st !! sid2 = Some s2 →
  ACTIVE_SESSIONS st' !! sid2 = Some s2 ∧
  read_cart st' (cart s2) = read_cart st (cart s2) ∧
  get_cart st' sid2 = get_cart st sid2.
Proof.
  intros Hinv%reachable_inv Hstep Hne Hs2.
  assert (Hgoal : ACTIVE_SESSIONS st' !! sid2 = Some s2 ∧
                  read_cart st' (cart s2) = read_cart st (cart s2)).
  { destruct (step_transition_session _ _ _ Hstep) as [->|Ht]; [done|].
    destruct (transition_actor _ _ _ Hinv Ht) as (snew & lines' & Hsess & _).
    split; [by rewrite Hsess, lookup_insert_ne|].
    apply (transition_bystander st (op_session op)); [done| |].
    - by eapply inv_readable.
    - intros session Hs.
      by apply (inv_sessions_apart _ Hinv (op_session op) sid2). }
  destruct Hgoal as [Hs2' Hr]. split; [done|]. split; [done|].
  unfold get_cart. by rewrite Hs2', Hs2, Hr.
Qed.

Lemma step_session_entry st op st' sid session :
  step MENU_ITEMS st op = Some st' →
  ACTIVE_SESSIONS st !! sid = Some session →
  ∃ session', ACTIVE_SESSIONS st' !! sid = Some session' ∧
              (keeps_session sid op → created_at session' = created_at session).
Proof.
  intros Hstep Hs.
  assert (Hins : ∀ sid0 snew,
            ACTIVE_SESSIONS st !! sid0 = Some session →
            created_at snew = created_at session →
            ∃ session', <[sid0 := snew]> (ACTIVE_SESSIONS st) !! sid = Some session' ∧
                        created_at session' = created_at session).
  { intros sid0 snew Hs0 Hcr. destruct (decide (sid0 = sid)) as [->|Hne].
    - exists snew. by rewrite lookup_insert_eq.
    - exists session. by rewrite lookup_insert_ne. }
  assert (Hother : ∀ sid0 s0 snew,
            ACTIVE_SESSIONS st !! sid0 = Some s0 →
            created_at snew = created_at s0 →
            ∃ session', <[sid0 := snew]> (ACTIVE_SESSIONS st) !! sid = Some session' ∧
                        created_at session' = created_at session).
  { intros sid0 s0 snew Hs0 Hcr. destruct (decide (sid0 = sid)) as [->|Hne].
    - apply Hins; [done|]. congruence.
    - exists session. by rewrite lookup_insert_ne. }
  assert (Hlift : ∀ m : gmap string Session,
            (∃ session', m !! sid = Some session' ∧
                         created_at session' = created_at session) →
            ∃ session', m !! sid = Some session' ∧
                        (keeps_session sid op →
                         created_at session' = created_at session)).
  { intros m (s' & Hm & Hcr). eauto. }
  destruct op as [sid0 now|sid0 iid q now|sid0 iid now|sid0 cu pa oh ot th now];
    simpl in Hstep.
  - injection Hstep as <-. simpl.
    destruct (decide (sid0 = sid)) as [->|Hne].
    + eexists. rewrite lookup_insert_eq. split; [done|]. simpl. by intros Hk.
    + exists session. by rewrite lookup_insert_ne.
  - apply fmap_Some in Hstep as ([reply st1] & Hadd & ->). simpl.
    destruct (add_to_cart_cases _ _ _ _ _ _ _ Hadd)
      as [(msg & _ & -> & _) |
          (s0 & item & refs & tot & Hs0 & _ & _ & _ &
           [[_ ->] | (p & ln & _ & _ & _ & ->)])]; simpl; eauto.
  - apply fmap_Some in Hstep as ([reply st1] & Hrm & ->). simpl.
    destruct (remove_from_cart_cases _ _ _ _ _ _ Hrm)
      as [(msg & _ & -> & _) | (s0 & refs & kept & tot & Hs0 & _ & _ & _ & ->)];
      simpl; eauto.
  - apply fmap_Some in Hstep as ([reply st1] & Hco & ->). simpl.
    destruct (checkout_cases _ _ _ _ _ _ _ _ _ _ Hco)
      as [(msg & _ & -> & _) | (s0 & order & Hs0 & _ & _ & _ & ->)];
      simpl; eauto.
Qed.

(** X12. No tool deletes a session: a session id that is in the session
    dictionary stays in it through every run, and its [created_at] stays the
    same as long as [create_cart] does not draw that id again. *)
Theorem sessions_are_kept ops : ∀ st st' sid session,
  run MENU_ITEMS st ops = Some st' →
  ACTIVE_SESSIONS st !! sid = Some session →
  ∃ session', ACTIVE_SESSIONS st' !! sid = Some session' ∧
              (Forall (keeps_session sid) ops →
               created_at session' = created_at session).
Proof.
  induction ops as [|op ops IH]; simpl; intros st st' sid session Hrun Hs.
  - injection Hrun as <-. by exists session.
  - destruct (step MENU_ITEMS st op) as [st1|] eqn:Hstep; simpl in Hrun; [|done].
    destruct (step_session_entry _ _ _ _ _ Hstep Hs) as (s1 & Hs1 & Hcr1).
    destruct (IH st1 st' sid s1 Hrun Hs1) as (s' & Hs' & Hcr').
    exists s'. split; [done|]. intros [Hk Hks]%Forall_cons.
    rewrite Hcr' by done. by apply Hcr1.
Qed.

(** ** Carts *)

Lemma lines_in_heap (heap : gmap loc (CartLine num)) refs lines ln :
  Forall2 (λ p l, heap !! p = Some l) refs lines →
  ln ∈ lines → ∃ p, heap !! p = Some ln.
Proof.
  induction 1 as [|p l refs lines Hp Hrest IH].
  - intros Hin. by apply elem_of_nil in Hin.
  - intros [->|Hin]%elem_of_cons; eauto.
Qed.

Lemma step_lines_from_menu st op st' :
  (∀ p ln, line_heap st !! p = Some ln → line_from_menu MENU_ITEMS ln) →
  step MENU_ITEMS st op = Some st' →
  ∀ p ln, line_heap st' !! p = Some ln → line_from_menu MENU_ITEMS ln.
Proof.
  intros Hall Hstep. op_cases op; simpl in Hstep.
  - by injection Hstep as <-.
  - apply fmap_Some in Hstep as ([reply st1] & Hadd & ->). simpl.
    destruct (add_to_cart_cases _ _ _ _ _ _ _ Hadd)
      as [(msg & _ & -> & _) |
          (s0 & item & refs & tot & _ & Hm & _ & _ &
           [[_ ->] | (p0 & ln0 & _ & Hln0 & Hid & ->)])]; simpl; [done| |].
    + intros p ln [[_ <-]|[_ Hp]]%lookup_insert_Some; [|eauto].
      by exists item.
    + intros p ln [[_ <-]|[_ Hp]]%lookup_insert_Some; [|eauto].
      destruct (Hall _ _ Hln0) as (item0 & Hm0 & Hn & Hpr). by exists item0.
  - apply fmap_Some in Hstep as ([reply st1] & Hrm & ->). simpl.
    destruct (remove_from_cart_cases _ _ _ _ _ _ Hrm)
      as [(msg & _ & -> & _) | (s0 & refs & kept & tot & _ & _ & _ & _ & ->)];
      done.
  - apply fmap_Some in Hstep as ([reply st1] & Hco & ->). simpl.
    destruct (checkout_cases _ _ _ _ _ _ _ _ _ _ Hco)
      as [(msg & _ & -> & _) | (s0 & order & _ & _ & _ & _ & ->)]; done.
Qed.

Lemma run_lines_from_menu ops : ∀ st st',
  (∀ p ln, line_heap st !! p = Some ln → line_from_menu MENU_ITEMS ln) →
  run MENU_ITEMS st ops = Some st' →
  ∀ p ln, line_heap st' !! p = Some ln → line_from_menu MENU_ITEMS ln.
Proof.
  induction ops as [|op ops IH]; simpl; intros st st' Hall Hrun.
  - by injection Hrun as <-.
  - destruct (step MENU_ITEMS st op) as [st1|] eqn:Hstep; simpl in Hrun; [|done].
    apply (IH st1); [|done]. by eapply step_lines_from_menu.
Qed.

(** X14. In every reachable state, every line of a cart and every line of
    an order has an item id of the menu and carries the name and the price
    the menu has for that item: the price captured when the line was created
    is the menu's price. *)
Theorem lines_carry_menu_data st c lines ln :
  reachable MENU_ITEMS st →
  read_cart st c = Some lines →
  ln ∈ lines →
  ∃ item, item ∈ MENU_ITEMS ∧ m_id item = item_id ln ∧
          name ln = m_name item ∧ price ln = m_price item.
Proof.
  intros [ops Hrun] (refs & _ & Hl)%read_cart_Some Hin.
  destruct (lines_in_heap _ _ _ _ Hl Hin) as [p Hp].
  destruct (run_lines_from_menu ops initial_state st) with (p := p) (ln := ln)
    as (item & Hm & Hn & Hpr); [|done|done|].
  { intros p0 ln0. simpl. by rewrite lookup_empty. }
  apply find_some in Hm as [Hi Hid%String.eqb_eq].
  exists item. by rewrite list_elem_of_In.
Qed.

Lemma lines_without_bumped iid q lines :
  lines_without iid (lines_bumped iid q lines) = lines_without iid lines.
Proof.
  unfold lines_without, lines_bumped.
  induction lines as [|l lines IH]; [done|].
  rewrite fmap_cons, !filter_cons, IH.
  destruct (decide (item_id l = iid)) as [Heq|Hne]; simpl.
  - rewrite !decide_False; [done | by intros Hx | by intros Hx].
  - by rewrite !decide_True.
Qed.

Lemma lines_without_snoc iid lines (ln : CartLine num) :
  item_id ln = iid →
  lines_without iid (lines ++ [ln]) = lines_without iid lines.
Proof.
  intros Hid. unfold lines_without. rewrite filter_app, filter_cons.
  rewrite decide_False by (by intros Hx). by rewrite filter_nil, app_nil_r.
Qed.

(** X17. [remove_from_cart] deletes the whole line of an item, whatever its
    quantity, and keeps the other lines in their order; so removing an item
    just added to a cart that had no line for it gives the cart back. *)
Theorem add_then_remove st sid session iid item q now now2 :
  reachable MENU_ITEMS st →
  ACTIVE_SESSIONS st !! sid = Some session →
  menu_lookup MENU_ITEMS iid = Some item →
  ∃ lines reply1 st1 reply2 st2 session2,
    read_cart st (cart session) = Some lines ∧
    add_to_cart MENU_ITEMS st sid iid q now = Some (Success reply1, st1) ∧
    remove_from_cart st1 sid iid now2 = Some (Success reply2, st2) ∧
    ACTIVE_SESSIONS st2 !! sid = Some session2 ∧
    read_cart st2 (cart session2) = Some (lines_without iid lines) ∧
    (iid ∉ cart_ids (lines_without iid lines)) ∧
    (iid ∉ cart_ids lines → lines_without iid lines = lines).
Proof.
  intros Hinv%reachable_inv Hs Hm.
  destruct (inv_readable _ Hinv _ _ Hs) as [lines Hr].
  pose proof (inv_one_line _ Hinv _ _ _ Hs Hr) as Hnd.
  pose proof Hr as (refs & Hc & Hl)%read_cart_Some.
  assert (Hadd : ∃ reply1 st1 lines1,
            add_to_cart MENU_ITEMS st sid iid q now = Some (Success reply1, st1) ∧
            ACTIVE_SESSIONS st1 !! sid = Some (touch session now) ∧
            read_cart st1 (cart session) = Some lines1 ∧
            lines_without iid lines1 = lines_without iid lines).
  { destruct (decide (iid ∈ cart_ids lines)) as [Hin|Hout].
    - destruct (add_to_cart_bump st sid session item refs lines iid q now)
        as (p & ln & _ & _ & _ & Hadd & Hr1); auto.
      eexists _, _, _. split; [exact Hadd|].
      split; [simpl; by rewrite lookup_insert_eq|]. split; [exact Hr1|].
      apply lines_without_bumped.
    - destruct (add_to_cart_append st sid session item refs lines iid q now)
        as [Hadd Hr1]; auto.
      eexists _, _, _. split; [exact Hadd|].
      split; [simpl; by rewrite lookup_insert_eq|]. split; [exact Hr1|].
      by apply lines_without_snoc. }
  destruct Hadd as (reply1 & st1 & lines1 & Hadd & Hs1 & Hr1 & Hwo).
  destruct (remove_from_cart_spec st1 sid _ lines1 iid now2 Hs1 Hr1)
    as (refs1 & kept & _ & _ & Hrm & Hr2).
  rewrite Hwo in Hrm, Hr2.
  exists lines. eexists reply1, st1, _, _, _. split; [done|].
  split; [exact Hadd|]. split; [exact Hrm|].
  split; [simpl; by rewrite lookup_insert_eq|]. split; [exact Hr2|].
  split; [|apply lines_without_absent].
  unfold cart_ids, lines_without. intros (l & Hid & Hl')%list_elem_of_fmap.
  apply list_elem_of_filter in Hl' as [Hne _]. by apply Hne.
Qed.

(** X19. What [add_to_cart] and [remove_from_cart] answer is what [get_cart]
    answers right after: the same cart and the same total. *)
Theorem reply_is_the_cart st sid iid q now :
  (∀ reply st',
     add_to_cart MENU_ITEMS st sid iid q now = Some (Success reply, st') →
     get_cart st' sid = Some (Success reply)) ∧
  (∀ reply st',
     remove_from_cart st sid iid now = Some (Success reply, st') →
     get_cart st' sid = Some (Success reply)).
Proof.
  split; intros reply st'.
  - unfold add_to_cart.
    destruct (ACTIVE_SESSIONS st !! sid) as [session|] eqn:Hs; [|done].
    destruct (menu_lookup MENU_ITEMS iid) as [item|]; [|done]. simpl.
    destruct (list_heap st !! cart session) as [refs|]; [|done]. simpl.
    destruct (find_line (line_heap st) refs iid) as [found|]; [|done]. simpl.
    match goal with |- context [mbind _ ?m] => destruct m as [heaps|] end;
      [|done]. simpl.
    match goal with |- context [read_cart ?s ?c] =>
      destruct (read_cart s c) as [lines|] eqn:Hr end; [|done]. simpl.
    intros [= <- <-]. unfold get_cart. simpl. rewrite lookup_insert_eq. simpl.
    by rewrite Hr.
  - unfold remove_from_cart.
    destruct (ACTIVE_SESSIONS st !! sid) as [session|] eqn:Hs; [|done]. simpl.
    destruct (list_heap st !! cart session) as [refs|]; [|done]. simpl.
    destruct (other_lines (line_heap st) refs iid) as [kept|]; [|done]. simpl.
    match goal with |- context [read_cart ?s ?c] =>
      destruct (read_cart s c) as [lines|] eqn:Hr end; [|done]. simpl.
    intros [= <- <-]. unfold get_cart. simpl. rewrite lookup_insert_eq. simpl.
    by rewrite Hr.
Qed.

(** ** Orders *)

Lemma prefix_append s t : String.prefix s (s +:+ t) = true.
Proof.
  induction s as [|a s IH]; simpl.
  - by destruct t.
  - unfold String.app. simpl. destruct (ascii_dec a a); [exact IH | done].
Qed.

(** A successful checkout, in a state that keeps the invariants, is the
    checkout of a readable cart that is not empty. *)
Lemma checkout_success_inv st sid cu pa oh ot th now reply st' :
  state_inv st →
  checkout st sid cu pa oh ot th now = Some (Success reply, st') →
  ∃ session lines,
    ACTIVE_SESSIONS st !! sid = Some session ∧
    read_cart st (cart session) = Some lines ∧
    lines ≠ [] ∧
    reply_order reply = placed_order session lines cu pa oh ot th ∧
    st' = checked_out_state st sid session
            (placed_order session lines cu pa oh ot th) now.
Proof.
  intros Hinv Hco.
  destruct (checkout_cases _ _ _ _ _ _ _ _ _ _ Hco)
    as [(msg & [=] & _) | (session & order & Hs & _)].
  destruct (inv_readable _ Hinv _ _ Hs) as [lines Hr].
  assert (Hne : lines ≠ []).
  { intros ->. rewrite (checkout_empty st sid session) in Hco; done. }
  rewrite (checkout_nonempty st sid session lines) in Hco by done.
  injection Hco as <- <-. by exists session, lines.
Qed.

Lemma step_orders_as_placed st op st' :
  state_inv st →
  (∀ oid o, ORDERS st !! oid = Some o → order_as_placed st oid o) →
  step MENU_ITEMS st op = Some st' →
  ∀ oid o, ORDERS st' !! oid = Some o → order_as_placed st' oid o.
Proof.
  intros Hinv Hall Hstep.
  assert (Hold : ∀ oid o, ORDERS st !! oid = Some o → order_as_placed st' oid o).
  { intros oid o Ho.
    destruct (Hall _ _ Ho) as (Hid & Hp & Ht & Hst & Hpay & lines & Hr & Hne & Htot).
    do 5 (split; [done|]). exists lines. split; [|done]. rewrite <- Hr.
    destruct (step_transition _ _ _ Hstep) as [-> | [sid Ht']]; [done|].
    by apply (transition_out_of_reach st sid st'), (inv_orders _ Hinv oid). }
  op_cases op; simpl in Hstep.
  - injection Hstep as <-. exact Hold.
  - apply fmap_Some in Hstep as ([reply st1] & Hadd & ->). simpl in *.
    intros oid o Ho. apply Hold.
    destruct (add_to_cart_cases _ _ _ _ _ _ _ Hadd)
      as [(msg & _ & -> & _) |
          (s0 & item & refs & tot & _ & _ & _ & _ &
           [[_ ->] | (p0 & ln0 & _ & _ & _ & ->)])]; done.
  - apply fmap_Some in Hstep as ([reply st1] & Hrm & ->). simpl in *.
    intros oid o Ho. apply Hold.
    destruct (remove_from_cart_cases _ _ _ _ _ _ Hrm)
      as [(msg & _ & -> & _) | (s0 & refs & kept & tot & _ & _ & _ & _ & ->)];
      done.
  - apply fmap_Some in Hstep as ([[msg|reply] st1] & Hco & ->); simpl in *.
    { intros oid o Ho. apply Hold.
      destruct (checkout_cases _ _ _ _ _ _ _ _ _ _ Hco)
        as [(msg' & _ & -> & _) | (s0 & order & _ & _ & _ & [=] & _)]; done. }
    destruct (checkout_success_inv _ _ _ _ _ _ _ _ _ _ Hinv Hco)
      as (session & lines & Hs & Hr & Hne & _ & ->).
    intros oid o Ho. simpl in Ho.
    apply lookup_insert_Some in Ho as [[<- <-]|[_ Ho]]; [|by apply Hold].
    split; [done|]. do 2 (split; [apply prefix_append|]).
    do 2 (split; [done|]). exists lines. split; [|done].
    by apply (checked_out_reads st sid session).
Qed.

Lemma run_orders_as_placed ops : ∀ st st',
  state_inv st →
  (∀ oid o, ORDERS st !! oid = Some o → order_as_placed st oid o) →
  run MENU_ITEMS st ops = Some st' →
  ∀ oid o, ORDERS st' !! oid = Some o → order_as_placed st' oid o.
Proof.
  induction ops as [|op ops IH]; simpl; intros st st' Hinv Hall Hrun.
  - by injection Hrun as <-.
  - destruct (step MENU_ITEMS st op) as [st1|] eqn:Hstep; simpl in Hrun; [|done].
    apply (IH st1); [by eapply step_inv | by eapply step_orders_as_placed | done].
Qed.

(** X13. In every reachable state, every stored order is as [checkout]
    built it: it is stored under its own id, which starts with "ORD-", its
    transaction id starts with "TXN-", its status is "confirmed" and its
    payment status "approved", it has at least one line, and its total is
    the total of its lines. *)
Theorem stored_orders_are_as_placed st oid order :
  reachable MENU_ITEMS st →
  ORDERS st !! oid = Some order →
  order_id order = oid ∧
  String.prefix "ORD-" oid = true ∧
  String.prefix "TXN-" (transaction_id (payment_info order)) = true ∧
  status order = "confirmed" ∧
  payment_status (payment_info order) = "approved" ∧
  ∃ lines, read_cart st (items order) = Some lines ∧ lines ≠ [] ∧
           total order = cart_total lines.
Proof.
  intros [ops Hrun] Ho.
  apply (run_orders_as_placed ops initial_state st); auto.
  - apply initial_state_inv.
  - intros oid0 o0. simpl. by rewrite lookup_empty.
Qed.

(** X15. No tool deletes or edits an order: through every run,
    [get_order_status] answers for an order id as it did before, as long as
    no checkout of the run draws that id; and an id that has an order keeps
    having one, whatever the run draws. *)
Theorem orders_are_kept ops : ∀ st st' oid,
  run MENU_ITEMS st ops = Some st' →
  (Forall (draws_other_id oid) ops →
   get_order_status st' oid = get_order_status st oid) ∧
  (is_Some (ORDERS st !! oid) → is_Some (ORDERS st' !! oid)).
Proof.
  induction ops as [|op ops IH]; simpl; intros st st' oid Hrun.
  - by injection Hrun as <-.
  - destruct (step MENU_ITEMS st op) as [st1|] eqn:Hstep; simpl in Hrun; [|done].
    destruct (IH st1 st' oid Hrun) as [IH1 IH2].
    destruct (step_orders _ _ _ Hstep)
      as [Heq | (sid & cu & pa & oh & ot & th & now & order & -> & Heq)].
    + split.
      * intros [_ Hids]%Forall_cons. rewrite IH1 by done.
        unfold get_order_status. by rewrite Heq.
      * intros Ho. apply IH2. by rewrite Heq.
    + split.
      * intros [Hid Hids]%Forall_cons. rewrite IH1 by done.
        unfold get_order_status. rewrite Heq. simpl in Hid.
        by rewrite lookup_insert_ne.
      * intros Ho. apply IH2. rewrite Heq.
        destruct (decide (make_order_id oh = oid)) as [->|Hne].
        -- rewrite lookup_insert_eq. eauto.
        -- by rewrite lookup_insert_ne.
Qed.

(** X16. A checkout empties the cart, so a second checkout of the session
    right after a successful one is refused and places no order. *)
Theorem second_checkout_refused st sid cu pa oh ot th now reply st' :
  reachable MENU_ITEMS st →
  checkout st sid cu pa oh ot th now = Some (Success reply, st') →
  ∀ cu2 pa2 oh2 ot2 th2 now2,
    checkout st' sid cu2 pa2 oh2 ot2 th2 now2
      = Some (Failure "Cannot checkout with empty cart", st').
Proof.
  intros Hinv%reachable_inv Hco cu2 pa2 oh2 ot2 th2 now2.
  destruct (checkout_success_inv _ _ _ _ _ _ _ _ _ _ Hinv Hco)
    as (session & lines & Hs & Hr & Hne & _ & ->).
  apply (checkout_empty _ sid {| cart := fresh (dom (list_heap st));
                                 created_at := created_at session;
                                 last_active := now |}).
  - simpl. by rewrite lookup_insert_eq.
  - by destruct (checked_out_reads st sid session
                   (placed_order session lines cu pa oh ot th) now lines Hr).
Qed.

End Properties.

(** The examples below are written in ASCII. *)
#[global] Existing Instance ascii_PyStr.

(** * The properties at work on the example *)

Lemma created_reachable : reachable Example.menu Example.created.
Proof. exists [OpCreateCart "s1" 10]. reflexivity. Qed.

Lemma burger_cart_reachable : reachable Example.menu Example.burger_cart.
Proof.
  exists [OpCreateCart "s1" 10; OpAddToCart "s1" "burger-01" 2 11]. reflexivity.
Qed.

(** With integer prices the total grows by price times quantity with every
    line. *)
Lemma integer_total_snoc (lines : list (CartLine Z)) (l : CartLine Z) :
  cart_total (lines ++ [l]) = (cart_total lines + price l * quantity l)%Z.
Proof.
  unfold cart_total. rewrite fmap_app. simpl. apply fold_left_app.
Qed.

(** The scenario of the specification: two burgers at 8.50, a total of 17.00,
    a confirmed order of 17.00, and an empty cart again. *)
Example scenario :
  ∃ st1 st2 order,
    get_cart Example.burger_cart "s1"
      = Some (Success {| reply_cart := 1%positive; reply_total := 1700 |}) ∧
    checkout Example.burger_cart "s1" None None Example.hex1 12 Example.hex2 13
      = Some (Success {| reply_order := order; reply_success := true;
                         reply_message := "Order placed successfully" |}, st1) ∧
    total order = 1700 ∧ status order = "confirmed" ∧
    order_id order = "ORD-3F2A9C4B" ∧
    get_cart st1 "s1"
      = Some (Success {| reply_cart := 2%positive; reply_total := 0 |}) ∧
    read_cart st1 2%positive = Some [] ∧
    run Example.menu st1 Example.later_ops = Some st2 ∧
    get_order_status st2 "ORD-3F2A9C4B" = Success order.
Proof.
  eexists _, _, _. split; [reflexivity|]. split; [reflexivity|].
  repeat split; vm_compute; reflexivity.
Qed.

(** ** Instances of the theorems *)

Lemma checkout_places_order_witness :
  ∃ order st',
    checkout Example.burger_cart "s1" None None Example.hex1 12 Example.hex2 13
      = Some (Success {| reply_order := order; reply_success := true;
                         reply_message := "Order placed successfully" |}, st') ∧
    read_cart st' (items order) = Some [Example.burger_line 2] ∧
    total order = 1700 ∧
    status order = "confirmed".
Proof.
  destruct (checkout_places_order (num:=Z) Example.burger_cart "s1"
              Example.burger_session [Example.burger_line 2]
              None None Example.hex1 12 Example.hex2 13)
    as (order & st' & session' & Hco & Hitems & Htotal & Hstatus & _).
  - reflexivity.
  - reflexivity.
  - discriminate.
  - exists order, st'. split; [exact Hco|]. split; [exact Hitems|].
    split; [exact Htotal | exact Hstatus].
Defined.

Lemma checkout_empty_cart_rejected_witness :
  ∃ st',
    checkout Example.created "s1" None None Example.hex1 12 Example.hex2 13
      = Some (Failure "Cannot checkout with empty cart", st') ∧
    ORDERS st' = ORDERS Example.created ∧
    read_cart st' 1%positive = Some [].
Proof.
  destruct (checkout_empty_cart_rejected (num:=Z) Example.created "s1"
              Example.new_session None None Example.hex1 12 Example.hex2 13)
    as (st' & Hco & Horders & _ & Hcart & _).
  - reflexivity.
  - reflexivity.
  - exists st'. split; [exact Hco|]. split; [exact Horders | exact Hcart].
Defined.

Lemma one_line_per_item_witness :
  ∃ reply1 st1 reply2 st2 session2,
    add_to_cart Example.menu Example.created "s1" "burger-01" 2 11
      = Some (Success reply1, st1) ∧
    add_to_cart Example.menu st1 "s1" "burger-01" 3 12
      = Some (Success reply2, st2) ∧
    ACTIVE_SESSIONS st2 !! "s1" = Some session2 ∧
    read_cart st2 (cart session2) = Some [Example.burger_line 5].
Proof.
  destruct (one_line_per_item Example.menu Example.created "s1"
              Example.new_session created_reachable eq_refl)
    as (lines & Hr & _ & Hadd).
  assert (lines = []) as -> by (vm_compute in Hr; congruence).
  destruct (Hadd "burger-01" Example.burger 2 11 eq_refl)
    as (reply1 & st1 & session1 & Hadd1 & _ & _ & Hnew).
  destruct Hnew as [_ Hadd2]; [apply not_elem_of_nil|].
  destruct (Hadd2 3 12) as (reply2 & st2 & session2 & Hadd3 & Hs2 & Hr2).
  exists reply1, st1, reply2, st2, session2.
  split; [exact Hadd1|]. split; [exact Hadd3|]. split; [exact Hs2 | exact Hr2].
Defined.


Lemma reported_total_is_cart_sum_witness :
  get_cart Example.burger_cart "s1"
    = Some (Success {| reply_cart := 1%positive; reply_total := 1700 |}) ∧
  ∃ reply st' session' lines',
    add_to_cart Example.menu Example.burger_cart "s1" "salad-01" 3 12
      = Some (Success reply, st') ∧
    ACTIVE_SESSIONS st' !! "s1" = Some session' ∧
    reply_cart reply = cart session' ∧
    read_cart st' (cart session') = Some lines' ∧
    reply_total reply = cart_total lines'.
Proof.
  destruct (reported_total_is_cart_sum Example.menu Example.burger_cart "s1"
              Example.burger_session [Example.burger_line 2] eq_refl eq_refl)
    as (_ & _ & Hget & Hadd & _).
  split; [exact Hget|].
  exact (Hadd "salad-01" Example.salad 3 12 eq_refl).
Defined.

Lemma order_is_immutable_witness :
  ∃ reply st1 st2,
    checkout Example.burger_cart "s1" None None Example.hex1 12 Example.hex2 13
      = Some (Success reply, st1) ∧
    run Example.menu st1 Example.later_ops = Some st2 ∧
    get_order_status st2 (order_id (reply_order reply))
      = Success (reply_order reply) ∧
    read_cart st2 (items (reply_order reply)) = Some [Example.burger_line 2].
Proof.
  pose proof (checkout_nonempty (num:=Z) Example.burger_cart "s1"
                Example.burger_session [Example.burger_line 2]
                None None Example.hex1 12 Example.hex2 13 eq_refl eq_refl
                ltac:(discriminate)) as Hco.
  destruct (order_is_immutable Example.menu Example.burger_cart "s1"
              None None Example.hex1 12 Example.hex2 13 _ _ Example.later_ops
              burger_cart_reachable Hco)
    as (lines & st2 & Hr1 & _ & _ & Hrun & Hget & Hr2).
  - repeat constructor. vm_compute. discriminate.
  - assert (lines = [Example.burger_line 2]) as ->
      by (vm_compute in Hr1; injection Hr1 as <-; reflexivity).
    eexists _, _, st2. split; [exact Hco|]. split; [exact Hrun|].
    split; [exact Hget | exact Hr2].
Defined.

Lemma remove_from_cart_idempotent_witness :
  ∃ reply1 st1 reply2 st2,
    remove_from_cart Example.burger_cart "s1" "burger-01" 12
      = Some (Success reply1, st1) ∧
    remove_from_cart st1 "s1" "burger-01" 13 = Some (Success reply2, st2) ∧
    read_cart st2 (reply_cart reply2) = read_cart st1 (reply_cart reply1) ∧
    reply_total reply2 = reply_total reply1.
Proof.
  destruct (remove_from_cart_idempotent (num:=Z) Example.burger_cart "s1"
              Example.burger_session [Example.burger_line 2] "burger-01" 12 13
              eq_refl eq_refl)
    as (reply1 & st1 & session1 & reply2 & st2 & session2 & lines1 &
        Hrm1 & _ & Hc1 & Hr1 & Hrm2 & _ & Hc2 & Hr2 & Htot & _).
  exists reply1, st1, reply2, st2.
  split; [exact Hrm1|]. split; [exact Hrm2|].
  split; [|exact Htot].
  rewrite <- Hc1, <- Hc2, Hr1, Hr2. reflexivity.
Defined.

Lemma last_active_follows_successful_calls_witness :
  (∃ reply st' session',
     remove_from_cart Example.created "s1" "burger-01" 21
       = Some (Success reply, st') ∧
     ACTIVE_SESSIONS st' !! "s1" = Some session' ∧
     last_active session' = 21) ∧
  checkout Example.created "s1" None None Example.hex1 20 Example.hex2 21
    = Some (Failure "Cannot checkout with empty cart", Example.created).
Proof.
  destruct (last_active_follows_successful_calls Example.menu Example.created
              "s1" Example.new_session [] eq_refl eq_refl)
    as (_ & Hrm & _ & Hco & _).
  split.
  - exact (Hrm "burger-01" 21).
  - exact (Hco None None Example.hex1 20 Example.hex2 21 eq_refl).
Defined.

Lemma unknown_preference_ignored_witness :
  find_items_by_criteria Example.menu (Some "pescatarian") (Some 700) None None
  = find_items_by_criteria Example.menu None (Some 700) None None.
Proof.
  apply (unknown_preference_ignored Example.menu "pescatarian" (Some 700) None None).
  change ("pescatarian" ∉ ["vegetarian"; "vegan"; "gluten_free"]).
  rewrite !not_elem_of_cons.
  repeat split; [discriminate | discriminate | discriminate | apply not_elem_of_nil].
Defined.

Lemma checkout_defaults_witness :
  ∃ reply st',
    checkout Example.burger_cart "s1" None None Example.hex1 12 Example.hex2 13
      = Some (Success reply, st') ∧
    customer_info (reply_order reply) = ∅ ∧
    method (payment_info (reply_order reply)) = JString "credit_card".
Proof.
  pose proof (checkout_nonempty (num:=Z) Example.burger_cart "s1"
                Example.burger_session [Example.burger_line 2]
                None None Example.hex1 12 Example.hex2 13 eq_refl eq_refl
                ltac:(discriminate)) as Hco.
  destruct (checkout_defaults (num:=Z) _ _ _ _ _ _ _ _ _ _ Hco) as [Hcu Hpa].
  eexists _, _. split; [exact Hco|]. split; [by apply Hcu | apply Hpa; by left].
Defined.

(** ** Where the code departs from the specification *)


(** Against C6: a later checkout on the originating session that draws the
    order id again replaces the order.  Session "s1" checks out two burgers
    and gets the order "ORD-3F2A9C4B", of total 1700.  It then adds a salad
    and checks out again; [uuid4()] reads [hex3], another value with the same
    first eight digits.  From then on [get_order_status] returns, for
    "ORD-3F2A9C4B", an order of one salad and of total 600. *)
Lemma repeated_order_id_replaces_order :
  ∃ reply st1 st2 order2,
    checkout Example.burger_cart "s1" None None Example.hex1 12 Example.hex2 13
      = Some (Success reply, st1) ∧
    order_id (reply_order reply) = "ORD-3F2A9C4B" ∧
    get_order_status st1 "ORD-3F2A9C4B" = Success (reply_order reply) ∧
    total (reply_order reply) = 1700 ∧
    read_cart st1 (items (reply_order reply)) = Some [Example.burger_line 2] ∧
    (Example.hex3 ≠ Example.hex1) ∧
    run Example.menu st1 Example.repeated_id_ops = Some st2 ∧
    get_order_status st2 "ORD-3F2A9C4B" = Success order2 ∧
    total order2 = 600 ∧
    read_cart st2 (items order2) = Some [Example.salad_line 1] ∧
    (order2 ≠ reply_order reply).
Proof.
  eexists _, _, _, _. split; [reflexivity|].
  split; [reflexivity|]. split; [reflexivity|]. split; [reflexivity|].
  split; [reflexivity|]. split; [discriminate|]. split; [reflexivity|].
  split; [reflexivity|]. split; [reflexivity|]. split; [reflexivity|].
  intros Heq. apply (f_equal total) in Heq. vm_compute in Heq. discriminate Heq.
Qed.

(** Against C9: "VEGAN" is none of the three recognized values, and yet the
    query filters on it: the code compares [dietary_preference.lower()].
    With the preference the query returns the salad alone, without it the
    whole menu. *)
Lemma upper_case_preference_filters :
  ("VEGAN" ∉ ["vegetarian"; "vegan"; "gluten_free"]) ∧
  find_items_by_criteria Example.menu (Some "VEGAN") None None None
    = [Example.salad] ∧
  find_items_by_criteria Example.menu None None None None
    = [Example.burger; Example.salad] ∧
  (find_items_by_criteria Example.menu (Some "VEGAN") None None None
     ≠ find_items_by_criteria Example.menu None None None None).
Proof.
  split.
  { rewrite !not_elem_of_cons. repeat split; try discriminate.
    apply not_elem_of_nil. }
  split; [reflexivity|]. split; [reflexivity|].
  intros Heq. vm_compute in Heq. discriminate Heq.
Qed.

(** Against C8: a checkout refused because the cart is empty does not touch
    [last_active].  Session "s1" was last active at time 10; the refused
    checkout at time 21 leaves the state as it was. *)
Lemma refused_checkout_keeps_last_active :
  ACTIVE_SESSIONS Example.created !! "s1" = Some Example.new_session ∧
  read_cart Example.created 1%positive = Some [] ∧
  ∃ st' session',
    checkout Example.created "s1" None None Example.hex1 20 Example.hex2 21
      = Some (Failure "Cannot checkout with empty cart", st') ∧
    ACTIVE_SESSIONS st' !! "s1" = Some session' ∧
    last_active session' = 10 ∧
    last_active session' ≠ 21.
Proof.
  split; [reflexivity|]. split; [reflexivity|].
  exists Example.created, Example.new_session.
  split; [reflexivity|]. split; [reflexivity|]. split; [reflexivity|].
  discriminate.
Qed.

(** * Integer prices *)

Section IntegerPrices.

Variable MENU_ITEMS : list (MenuItem Z).

Lemma fold_add_from (xs : list Z) (a : Z) :
  fold_left Z.add xs a = (a + fold_left Z.add xs 0)%Z.
Proof.
  revert a. induction xs as [|x xs IH]; intros a; simpl; [lia|].
  rewrite (IH (a + x)%Z), (IH (0 + x)%Z). lia.
Qed.

Lemma integer_total_cons (l : CartLine Z) (lines : list (CartLine Z)) :
  cart_total (l :: lines) = (price l * quantity l + cart_total lines)%Z.
Proof. unfold cart_total. simpl. apply fold_add_from. Qed.

Lemma integer_total_bumped iid q unit_price (lines : list (CartLine Z)) :
  NoDup (cart_ids lines) →
  iid ∈ cart_ids lines →
  (∀ l, l ∈ lines → item_id l = iid → price l = unit_price) →
  cart_total (lines_bumped iid q lines) = (cart_total lines + unit_price * q)%Z.
Proof.
  induction lines as [|l lines IH]; intros Hnd Hin Hprice.
  - by apply elem_of_nil in Hin.
  - unfold cart_ids in Hnd, Hin. simpl in Hnd, Hin.
    apply NoDup_cons in Hnd as [Hnin Hnd].
    change (lines_bumped iid q (l :: lines))
      with ((if decide (item_id l = iid) then add_quantity l q else l)
              :: lines_bumped iid q lines).
    rewrite !integer_total_cons.
    destruct (decide (item_id l = iid)) as [Heq|Hne].
    + rewrite lines_bumped_absent by (by rewrite <- Heq).
      simpl. rewrite (Hprice l); [lia | apply list_elem_of_here | done].
    + apply elem_of_cons in Hin as [Hin|Hin]; [congruence|].
      rewrite IH; [lia | done | done |].
      intros l' Hl'. apply Hprice. by apply list_elem_of_further.
Qed.

(** X18. With integer prices, a successful [add_to_cart] raises the total of
    the cart by the menu price of the item times the quantity added, whether
    the cart had a line for the item or not. *)
Theorem integer_total_after_add st sid iid item q now reply st' :
  reachable MENU_ITEMS st →
  menu_lookup MENU_ITEMS iid = Some item →
  add_to_cart MENU_ITEMS st sid iid q now = Some (Success reply, st') →
  ∃ before,
    get_cart st sid = Some (Success before) ∧
    reply_total reply = (reply_total before + m_price item * q)%Z.
Proof.
  intros Hreach Hm Hadd.
  pose proof (reachable_inv _ _ Hreach) as Hinv.
  destruct (add_to_cart_cases _ _ _ _ _ _ _ _ Hadd)
    as [(msg & [=] & _) | (session & item' & refs & tot & Hs & _ & Hc & _)].
  destruct (inv_readable _ Hinv _ _ Hs) as [lines Hr].
  pose proof (inv_one_line _ Hinv _ _ _ Hs Hr) as Hnd.
  pose proof Hr as (refs' & Hc' & Hl)%read_cart_Some.
  assert (refs' = refs) as -> by congruence.
  exists {| reply_cart := cart session; reply_total := cart_total lines |}.
  split. { unfold get_cart. rewrite Hs. simpl. by rewrite Hr. }
  simpl. destruct (decide (iid ∈ cart_ids lines)) as [Hin|Hout].
  - destruct (add_to_cart_bump MENU_ITEMS st sid session item refs lines iid q now)
      as (p & ln & _ & _ & _ & Hadd' & _); auto.
    rewrite Hadd' in Hadd. injection Hadd as <- _. simpl.
    apply integer_total_bumped; [done | done |].
    intros l Hl' Hid.
    destruct Hreach as [ops Hrun].
    destruct (lines_in_heap _ _ _ _ Hl Hl') as [p' Hp'].
    destruct (run_lines_from_menu MENU_ITEMS ops initial_state st)
      with (p := p') (ln := l) as (item0 & Hm0 & _ & Hpr); [|done|done|].
    { intros p0 ln0. simpl. by rewrite lookup_empty. }
    rewrite Hid in Hm0. congruence.
  - destruct (add_to_cart_append MENU_ITEMS st sid session item refs lines iid q now)
      as [Hadd' _]; auto.
    rewrite Hadd' in Hadd. injection Hadd as <- _. simpl.
    apply integer_total_snoc.
Qed.

End IntegerPrices.

(** ** Instances of the further properties *)

Lemma two_sessions_reachable : reachable Example.menu Example.two_sessions.
Proof. exists Example.two_sessions_ops. reflexivity. Qed.

Lemma checked_out_reachable : reachable Example.menu Example.checked_out.
Proof. exists Example.checked_out_ops. reflexivity. Qed.

Lemma menu_categories_order_free_witness :
  get_menu_categories Example.menu = get_menu_categories Example.menu_reversed.
Proof.
  apply (menu_categories_order_free Example.menu Example.menu_reversed).
  apply perm_swap.
Defined.

Lemma unresolved_item_not_added_witness :
  add_to_cart Example.menu Example.burger_cart "s1" "nonexistent" 1 12
    = Some (Failure "Item 'nonexistent' not found", Example.burger_cart).
Proof.
  apply (unresolved_item_not_added Example.menu Example.burger_cart "s1"
           Example.burger_session "nonexistent" 1 12 eq_refl).
  reflexivity.
Defined.

Lemma find_items_ignores_case_witness :
  find_items_by_criteria Example.menu
    (Some "VEGAN") (Some 700) (Some ["GLUTEN"]) (Some "starters")
  = find_items_by_criteria Example.menu
    (Some "vegan") (Some 700) (Some ["gluten"]) (Some "Starters").
Proof.
  apply (find_items_ignores_case Example.menu); reflexivity.
Defined.

Lemma unknown_session_rejected_witness :
  get_cart Example.created "s9" = Some (Failure "Invalid session ID") ∧
  add_to_cart Example.menu Example.created "s9" "nonexistent" 1 11
    = Some (Failure "Invalid session ID", Example.created).
Proof.
  destruct (unknown_session_rejected Example.menu Example.created "s9" eq_refl)
    as (Hget & Hadd & _).
  split; [exact Hget | exact (Hadd "nonexistent" 1 11)].
Defined.

Lemma sessions_are_isolated_witness :
  ACTIVE_SESSIONS Example.two_sessions_after !! "s1" = Some Example.burger_session ∧
  get_cart Example.two_sessions_after "s1" = get_cart Example.two_sessions "s1".
Proof.
  destruct (sessions_are_isolated Example.menu Example.two_sessions
              Example.salad_for_s2 Example.two_sessions_after
              "s1" Example.burger_session)
    as (Hs & _ & Hget).
  - exact two_sessions_reachable.
  - reflexivity.
  - discriminate.
  - reflexivity.
  - split; [exact Hs | exact Hget].
Defined.

Lemma sessions_are_kept_witness :
  ∃ session',
    ACTIVE_SESSIONS Example.after_later_ops !! "s1" = Some session' ∧
    created_at session' = 10.
Proof.
  destruct (sessions_are_kept Example.menu Example.later_ops
              Example.checked_out Example.after_later_ops "s1"
              {| cart := 2%positive; created_at := 10; last_active := 13 |}
              eq_refl eq_refl)
    as (session' & Hs' & Hcr).
  exists session'. split; [exact Hs'|].
  apply Hcr. repeat constructor.
Defined.

Lemma stored_orders_are_as_placed_witness :
  status Example.first_order = "confirmed" ∧
  ∃ lines,
    read_cart Example.checked_out (items Example.first_order) = Some lines ∧
    total Example.first_order = cart_total lines.
Proof.
  destruct (stored_orders_are_as_placed Example.menu Example.checked_out
              "ORD-3F2A9C4B" Example.first_order checked_out_reachable eq_refl)
    as (_ & _ & _ & Hst & _ & lines & Hr & _ & Htot).
  split; [exact Hst|]. exists lines. split; [exact Hr | exact Htot].
Defined.

Lemma lines_carry_menu_data_witness :
  ∃ item, item ∈ Example.menu ∧ m_id item = "burger-01" ∧
          name (Example.burger_line 2) = m_name item ∧
          price (Example.burger_line 2) = m_price item.
Proof.
  apply (lines_carry_menu_data Example.menu Example.burger_cart 1%positive
           [Example.burger_line 2] (Example.burger_line 2)
           burger_cart_reachable eq_refl).
  apply list_elem_of_here.
Defined.

Lemma orders_are_kept_witness :
  get_order_status Example.after_later_ops "ORD-3F2A9C4B"
    = get_order_status Example.checked_out "ORD-3F2A9C4B".
Proof.
  destruct (orders_are_kept Example.menu Example.later_ops
              Example.checked_out Example.after_later_ops "ORD-3F2A9C4B" eq_refl)
    as [Hget _].
  apply Hget. repeat constructor. discriminate.
Defined.

Lemma second_checkout_refused_witness :
  ∃ reply st',
    checkout Example.burger_cart "s1" None None Example.hex1 12 Example.hex2 13
      = Some (Success reply, st') ∧
    checkout st' "s1" None None Example.hex2 14 Example.hex1 15
      = Some (Failure "Cannot checkout with empty cart", st').
Proof.
  pose proof (checkout_nonempty (num:=Z) Example.burger_cart "s1"
                Example.burger_session [Example.burger_line 2]
                None None Example.hex1 12 Example.hex2 13 eq_refl eq_refl
                ltac:(discriminate)) as Hco.
  eexists _, _. split; [exact Hco|].
  exact (second_checkout_refused Example.menu _ _ _ _ _ _ _ _ _ _
           burger_cart_reachable Hco None None Example.hex2 14 Example.hex1 15).
Defined.

Lemma add_then_remove_witness :
  ∃ reply1 st1 reply2 st2 session2,
    add_to_cart Example.menu Example.created "s1" "burger-01" 2 11
      = Some (Success reply1, st1) ∧
    remove_from_cart st1 "s1" "burger-01" 12 = Some (Success reply2, st2) ∧
    ACTIVE_SESSIONS st2 !! "s1" = Some session2 ∧
    read_cart st2 (cart session2) = Some [].
Proof.
  destruct (add_then_remove Example.menu Example.created "s1"
              Example.new_session "burger-01" Example.burger 2 11 12
              created_reachable eq_refl eq_refl)
    as (lines & reply1 & st1 & reply2 & st2 & session2 &
        Hr & Hadd & Hrm & Hs2 & Hr2 & _).
  assert (lines = []) as -> by (vm_compute in Hr; congruence).
  exists reply1, st1, reply2, st2, session2.
  split; [exact Hadd|]. split; [exact Hrm|]. split; [exact Hs2 | exact Hr2].
Defined.

Lemma reply_is_the_cart_witness :
  ∃ reply st',
    add_to_cart Example.menu Example.burger_cart "s1" "salad-01" 1 12
      = Some (Success reply, st') ∧
    get_cart st' "s1" = Some (Success reply).
Proof.
  destruct (add_to_cart_succeeds Example.menu Example.burger_cart "s1"
              Example.burger_session Example.salad [Example.burger_line 2]
              "salad-01" 1 12 eq_refl eq_refl eq_refl)
    as (st' & lines' & Hadd & _).
  eexists _, st'. split; [exact Hadd|].
  exact (proj1 (reply_is_the_cart Example.menu Example.burger_cart "s1"
                  "salad-01" 1 12) _ _ Hadd).
Defined.

Lemma integer_total_after_add_witness :
  ∃ reply st',
    add_to_cart Example.menu Example.burger_cart "s1" "burger-01" 3 12
      = Some (Success reply, st') ∧
    reply_total reply = 4250.
Proof.
  destruct (add_to_cart_succeeds Example.menu Example.burger_cart "s1"
              Example.burger_session Example.burger [Example.burger_line 2]
              "burger-01" 3 12 eq_refl eq_refl eq_refl)
    as (st' & lines' & Hadd & _).
  destruct (integer_total_after_add Example.menu Example.burger_cart "s1"
              "burger-01" Example.burger 3 12 _ st'
              burger_cart_reachable eq_refl Hadd)
    as (before & Hget & Htot).
  eexists _, st'. split; [exact Hadd|].
  vm_compute in Hget. injection Hget as <-. exact Htot.
Defined.
